(** * finance-tracker: the categorisation and ledger core of [main.py]

  A shallow embedding of the pure core of the expense tracker and the
  properties its specification states about it.

  Modelling conventions.
  - A Python [str] is a Rocq [string]: the text in UTF-8, one byte per
    character of the [string]. A text occurs in another exactly when its
    bytes occur in the bytes of the other.
  - [str.lower] is the case mapping of the Python runtime. The code is
    modelled over an arbitrary [lower]; what a property needs to know of it
    is a hypothesis of that property. Two instances run the examples:
    [PyStr.ascii_lower], which is [str.lower] on ASCII text, and
    [GreekText.lower], which is [str.lower] on text of ASCII characters and
    Greek letters.
  - A Python [dict] is an association list in insertion order; lookups and
    in-place updates act on the first entry with the given key.
  - An amount is the rational number a float holds ([Qc]); it is only
    compared with zero. Sums of amounts are taken by the summation of the
    library, a parameter.
  - A date is a time stamp, a point of the integer line ([Z]); only its
    order is used.
  - A Python call either returns a value or raises: [outcome]. *)

From Stdlib Require Import Ascii String DecimalString ZArith NArith QArith Qcanon.
From stdpp Require Import base numbers strings list gmap.

Local Open Scope string_scope.
Local Open Scope list_scope.

(** ** Python strings: [lower] and the substring test [in] *)

Module PyStr.

Definition is_upper (c : ascii) : bool :=
  ((65 <=? N_of_ascii c) && (N_of_ascii c <=? 90))%N.

Definition lower_ascii (c : ascii) : ascii :=
  if is_upper c then ascii_of_N (N_of_ascii c + 32) else c.

(** [s.lower()] for a text [s] of ASCII characters: the letters A-Z go to
    a-z and every other ASCII character stays. *)
Fixpoint ascii_lower (s : string) : string :=
  match s with
  | EmptyString => EmptyString
  | String c s' => String (lower_ascii c) (ascii_lower s')
  end.

(** [s.isascii()] *)
Fixpoint is_ascii (s : string) : bool :=
  match s with
  | EmptyString => true
  | String c s' => (N_of_ascii c <? 128)%N && is_ascii s'
  end.

(** Two facts of [str.lower] that properties below rely on: on ASCII text
    it is the mapping of A-Z to a-z, and it gives the empty text for the
    empty text only. *)
Definition lower_on_ascii (lower : string → string) : Prop :=
  ∀ s, is_ascii s = true → lower s = ascii_lower s.

Definition lower_keeps_empty (lower : string → string) : Prop :=
  ∀ s, lower s = "" ↔ s = "".

(** [sub in s]: [sub] occurs in [s] at some position. *)
Fixpoint contains (sub s : string) : bool :=
  String.prefix sub s ||
  match s with
  | EmptyString => false
  | String _ s' => contains sub s'
  end.

(** Two ASCII characters that are equal or are the two cases of one
    letter. *)
Definition ascii_eq_ignore_case (a b : ascii) : Prop :=
  a = b
  ∨ (is_upper a = true ∧ N_of_ascii b = (N_of_ascii a + 32)%N)
  ∨ (is_upper b = true ∧ N_of_ascii a = (N_of_ascii b + 32)%N).

(** Two ASCII texts that differ only in letter case. *)
Inductive eq_ignore_case : string → string → Prop :=
| eic_empty : eq_ignore_case "" ""
| eic_char a b s t :
    ascii_eq_ignore_case a b → eq_ignore_case s t →
    eq_ignore_case (String a s) (String b t).

(** [sub] occurs in [s] up to letter case, for ASCII texts: some substring
    of [s] differs from [sub] only in letter case. *)
Definition ci_contains (sub s : string) : Prop :=
  ∃ pre mid post, s = pre +:+ mid +:+ post ∧ eq_ignore_case mid sub.

End PyStr.

(** ** [str.lower] and [str.upper] on text of ASCII characters and the
    Greek letters U+0391 to U+03A9 and U+03B1 to U+03C9

    On such text the two functions below are those of Python, the rule for
    the final sigma included. On text with other characters they are not:
    they leave the other characters as they are. *)

Module GreekText.
Import PyStr.

(** The capital letters U+0391 to U+03A9 (U+03A2 is no character) are the
    bytes CE 91 to CE A9; the small letters U+03B1 to U+03C9 are CE B1 to
    CE BF and CF 80 to CF 89. *)
Definition is_greek_capital (c1 c2 : ascii) : bool :=
  ((N_of_ascii c1 =? 206) && (145 <=? N_of_ascii c2) && (N_of_ascii c2 <=? 169)
   && negb (N_of_ascii c2 =? 162))%N.

Definition is_greek_small (c1 c2 : ascii) : bool :=
  (((N_of_ascii c1 =? 206) && (177 <=? N_of_ascii c2) && (N_of_ascii c2 <=? 191))
   || ((N_of_ascii c1 =? 207) && (128 <=? N_of_ascii c2) && (N_of_ascii c2 <=? 137)))%N.

(** The characters of a text, each with its one or two bytes. *)
Fixpoint chars (s : string) : list string :=
  match s with
  | EmptyString => []
  | String c1 s1 =>
      match s1 with
      | EmptyString => [String c1 ""]
      | String c2 s2 =>
          if is_greek_capital c1 c2 || is_greek_small c1 c2
          then String c1 (String c2 "") :: chars s2
          else String c1 "" :: chars s1
      end
  end.

Definition is_ascii_letter (c : ascii) : bool :=
  (((65 <=? N_of_ascii c) && (N_of_ascii c <=? 90))
   || ((97 <=? N_of_ascii c) && (N_of_ascii c <=? 122)))%N.

(** The characters with the Unicode property Cased. *)
Definition cased (ch : string) : bool :=
  match ch with
  | String c "" => is_ascii_letter c
  | String c1 (String c2 "") => is_greek_capital c1 c2 || is_greek_small c1 c2
  | _ => false
  end.

(** The characters with the Unicode property Case_Ignorable. *)
Definition case_ignorable (ch : string) : bool :=
  bool_decide (ch ∈ ["'"; "."; ":"; "^"; "`"]).

Definition lower_char (ch : string) : string :=
  match ch with
  | String c "" => String (lower_ascii c) ""
  | String c1 (String c2 "") =>
      if is_greek_capital c1 c2 then
        if (N_of_ascii c2 <=? 159)%N
        then String c1 (String (ascii_of_N (N_of_ascii c2 + 32)) "")
        else String (ascii_of_N 207) (String (ascii_of_N (N_of_ascii c2 - 32)) "")
      else ch
  | _ => ch
  end.

Definition upper_char (ch : string) : string :=
  match ch with
  | String c "" =>
      if ((97 <=? N_of_ascii c) && (N_of_ascii c <=? 122))%N
      then String (ascii_of_N (N_of_ascii c - 32)) "" else ch
  | String c1 (String c2 "") =>
      if is_greek_small c1 c2 then
        if bool_decide (ch = "ς") then "Σ"
        else if (N_of_ascii c1 =? 206)%N
        then String c1 (String (ascii_of_N (N_of_ascii c2 - 32)) "")
        else String (ascii_of_N 206) (String (ascii_of_N (N_of_ascii c2 + 32)) "")
      else ch
  | _ => ch
  end.

(** Whether the next character that is not case-ignorable is cased. *)
Fixpoint followed_by_cased (rest : list string) : bool :=
  match rest with
  | [] => false
  | ch :: rest' => if case_ignorable ch then followed_by_cased rest' else cased ch
  end.

(** Lower-casing character by character. A capital sigma becomes the final
    small sigma when it ends a word: the last character before it that is not
    case-ignorable is cased ([after_cased]) and the next one after it is
    not. *)
Fixpoint lower_chars (after_cased : bool) (l : list string) : list string :=
  match l with
  | [] => []
  | ch :: rest =>
      (if bool_decide (ch = "Σ") then
         if after_cased && negb (followed_by_cased rest) then "ς" else "σ"
       else lower_char ch)
      :: lower_chars (if case_ignorable ch then after_cased else cased ch) rest
  end.

(** [s.lower()] *)
Definition lower (s : string) : string :=
  String.concat "" (lower_chars false (chars s)).

(** [s.upper()] *)
Definition upper (s : string) : string :=
  String.concat "" (upper_char <$> chars s).

(** Two texts that differ only in letter case: character by character, the
    same letter once written in capitals. *)
Definition differ_only_in_case (s t : string) : Prop :=
  Forall2 (λ a b, upper_char a = upper_char b) (chars s) (chars t).

End GreekText.

(** ** Python values, exceptions and [str()] *)

Module PyObj.

(** The values a description can be; floating-point numbers are left out. *)
Inductive pyobj :=
| PyNone
| PyBool (b : bool)
| PyInt (z : Z)
| PyStr (s : string).

Inductive exn :=
| KeyError (key : pyobj)
| ValueError
| FileNotFoundError
| PermissionError
| UnicodeDecodeError
| JSONDecodeError
| ParserError
| EmptyDataError
| KeyboardInterrupt.

(** The classes below [Exception]; [KeyboardInterrupt] derives from
    [BaseException] only. *)
Definition is_Exception (e : exn) : bool :=
  match e with
  | KeyboardInterrupt => false
  | _ => true
  end.

Inductive outcome (A : Type) :=
| Returned (a : A)
| Raised (e : exn).
Global Arguments Returned {A} a.
Global Arguments Raised {A} e.

Global Instance outcome_ret : MRet outcome := λ A a, Returned a.

Global Instance outcome_bind : MBind outcome := λ A B k m,
  match m with
  | Returned a => k a
  | Raised e => Raised e
  end.

Global Instance outcome_fmap : FMap outcome := λ A B f m,
  match m with
  | Returned a => Returned (f a)
  | Raised e => Raised e
  end.

(** [try: body  except Exception: handler] *)
Definition try_except_Exception {A} (body : outcome A) (handler : exn → outcome A)
  : outcome A :=
  match body with
  | Returned a => Returned a
  | Raised e => if is_Exception e then handler e else Raised e
  end.

(** [try: body  except: handler] *)
Definition try_except {A} (body : outcome A) (handler : outcome A) : outcome A :=
  match body with
  | Returned a => Returned a
  | Raised _ => handler
  end.

(** The longest decimal form [str] gives an integer: the default of
    [sys.get_int_max_str_digits()] in CPython 3.11. *)
Definition int_max_str_digits : nat := 4300.

Definition decimal_digits (z : Z) : nat :=
  match Z.to_int z with
  | Decimal.Pos d | Decimal.Neg d => Decimal.nb_digits d
  end.

(** [str(v)]; an integer of more than [int_max_str_digits] digits makes it
    raise [ValueError]. *)
Definition str (v : pyobj) : outcome string :=
  match v with
  | PyNone => Returned "None"
  | PyBool true => Returned "True"
  | PyBool false => Returned "False"
  | PyInt z =>
      if decide (int_max_str_digits < decimal_digits z)%nat then Raised ValueError
      else Returned (NilZero.string_of_int (Z.to_int z))
  | PyStr s => Returned s
  end.

End PyObj.

(** ** The category store: [categories], a dict from name to keyword list *)

Abbreviation CategoryStore := (list (string * list string)).

Module Dict.

(** [d[k]] *)
Fixpoint getitem {V} (d : list (string * V)) (k : string) : option V :=
  match d with
  | [] => None
  | (k', v) :: d' => if decide (k' = k) then Some v else getitem d' k
  end.

(** [list(d.keys())] *)
Definition keys {V} (d : list (string * V)) : list string := d.*1.

(** [d[k] = f(d[k])] for a key that is present; the entry keeps its place. *)
Fixpoint update {V} (d : list (string * V)) (k : string) (f : V → V)
  : list (string * V) :=
  match d with
  | [] => []
  | (k', v) :: d' =>
      if decide (k' = k) then (k', f v) :: d' else (k', v) :: update d' k f
  end.

End Dict.

(** ** The classifier: [categorize_expense] *)

Module Classifier.
Import PyStr PyObj.

Section Lower.

(** [str.lower] *)
Variable lower : string → string.

(** The inner loop: [for keyword in keywords: if keyword.lower() in description]. *)
Fixpoint any_keyword_in (description : string) (keywords : list string) : bool :=
  match keywords with
  | [] => false
  | keyword :: keywords' =>
      if contains (lower keyword) description then true
      else any_keyword_in description keywords'
  end.

(** The outer loop over [categories.items()], ending in [return "Other"]. *)
Fixpoint scan (description : string) (items : CategoryStore) : string :=
  match items with
  | [] => "Other"
  | (category, keywords) :: items' =>
      if any_keyword_in description keywords then category
      else scan description items'
  end.

Definition categorize_expense (description : pyobj) (categories : CategoryStore)
  : outcome string :=
  text ← str description;
  let description := lower text in
  mret (scan description categories).

(** The test of the inner loop on one keyword and the text of a description,
    [keyword.lower() in description.lower()]: the keyword occurs in the
    description once both are lower-cased. *)
Definition matches (keyword text : string) : Prop :=
  contains (lower keyword) (lower text) = true.

(** Keyword lists that hold the same lower-cased keywords, in any order and
    with any repetition. *)
Definition same_keywords (keywords keywords' : list string) : Prop :=
  ∀ k, k ∈ lower <$> keywords ↔ k ∈ lower <$> keywords'.

(** Stores with the same category names in the same order, each with the
    same keywords in that sense. *)
Definition same_store (categories categories' : CategoryStore) : Prop :=
  Forall2 (λ entry entry', entry.1 = entry'.1 ∧ same_keywords entry.2 entry'.2)
          categories categories'.

End Lower.

(** The store written on first run. *)
Definition default_categories : CategoryStore :=
  [ ("Food", ["grocery"; "restaurant"; "lunch"]);
    ("Transport", ["uber"; "taxi"; "gas"]);
    ("Entertainment", ["movie"; "game"; "concert"]);
    ("Bills", ["electric"; "water"; "internet"]);
    ("Other", []) ].

End Classifier.

(** ** What an interaction reports through [st.success], [st.warning], [st.error] *)

Inductive notice :=
| st_success (msg : string)
| st_warning (msg : string)
| st_error (msg : string).

(** ** The "Categories" tab: adding a category, adding a keyword *)

Module Categories.
Import PyObj.

(** The "Add Category" button. The new store is the one handed to
    [save_categories]. *)
Definition add_category (categories : CategoryStore) (new_category : string)
  : CategoryStore * notice :=
  if decide (new_category ≠ "" ∧ new_category ∉ Dict.keys categories) then
    (categories ++ [(new_category, [])],
     st_success ("Category '" +:+ new_category +:+ "' added!"))
  else
    (categories, st_warning "Please enter a valid, unique category name").

(** The "Add Keyword" button: [categories[selected_category].append(new_keyword)]
    under [if new_keyword]. Nothing is reported when the keyword is empty. *)
Definition add_keyword (categories : CategoryStore)
    (selected_category new_keyword : string)
  : outcome (CategoryStore * option notice) :=
  if decide (new_keyword ≠ "") then
    match Dict.getitem categories selected_category with
    | None => Raised (KeyError (PyStr selected_category))
    | Some _ =>
        Returned
          (Dict.update categories selected_category (λ keywords, keywords ++ [new_keyword]),
           Some (st_success
                   ("Keyword '" +:+ new_keyword +:+ "' added to " +:+ selected_category)))
    end
  else Returned (categories, None).

(** [l.index(x)] *)
Fixpoint list_index (l : list string) (x : string) : outcome nat :=
  match l with
  | [] => Raised ValueError
  | y :: l' => if decide (y = x) then Returned 0 else S <$> list_index l' x
  end.

(** The preselected entry of the category select box:
    [list(categories.keys()).index(suggested_category)]. *)
Definition suggested_index (lower : string → string)
    (description : pyobj) (categories : CategoryStore) : outcome nat :=
  suggested_category ← Classifier.categorize_expense lower description categories;
  list_index (Dict.keys categories) suggested_category.

End Categories.

(** ** The ledger: [expenses_df], one row per expense *)

Module Ledger.

(** A row of the frame whose category cell holds a text. A row whose
    category cell is missing (after a reload: an empty cell, or a text such
    as NA that [read_csv] takes for a missing value) is no [Expense];
    [groupby] leaves such rows out. *)
Record Expense := {
  Date : Z;
  Description : string;
  Category : string;
  Amount : Qc
}.

(** The "Add Expense" button. *)
Definition add_expense (expenses_df : list Expense)
    (date : Z) (description category : string) (amount : Qc)
  : list Expense * notice :=
  if decide (description = "") then
    (expenses_df, st_error "Please enter a description")
  else if decide (amount ≤ 0)%Qc then
    (expenses_df, st_error "Amount must be positive")
  else
    let new_expense :=
      {| Date := date; Description := description;
         Category := category; Amount := amount |} in
    (expenses_df ++ [new_expense], st_success "Expense added successfully!").

(** The "Expenses" tab: the date mask, then the category mask unless the
    selection is ["All"]. *)
Definition filter_expenses (expenses_df : list Expense)
    (start_date end_date : Z) (selected_category : string) : list Expense :=
  let filtered_df :=
    filter (λ r, (start_date ≤ Date r)%Z ∧ (Date r ≤ end_date)%Z) expenses_df in
  if decide (selected_category ≠ "All") then
    filter (λ r, Category r = selected_category) filtered_df
  else filtered_df.

(** The options of the "Filter by Category" select box; untouched, the box
    holds its first option. *)
Definition filter_options (categories : CategoryStore) : list string :=
  "All" :: Dict.keys categories.

(** The groups of [df.groupby('Category')['Amount']]: for each category met,
    the amounts of its rows in the order of the frame. *)
Definition groups (df : list Expense) : gmap string (list Qc) :=
  foldl (λ acc r, <[Category r := default [] (acc !! Category r) ++ [Amount r]]> acc)
        ∅ df.

(** [df.groupby('Category')['Amount'].sum()]: the sum of each group, taken by
    [group_sum], the summation of the library over the floats of one group. *)
Definition groupby_sum (group_sum : list Qc → Qc) (df : list Expense)
  : gmap string Qc :=
  group_sum <$> groups df.

(** What the "Add Expense" button checks before it appends. *)
Definition valid_expense (r : Expense) : Prop :=
  Description r ≠ "" ∧ (0 < Amount r)%Qc.

End Ledger.

(** ** Loading the persisted state *)

Module Storage.
Import PyObj.

(** A cell of a loaded frame. *)
Inductive cell :=
| CNone
| CNumber (q : Qc)
| CText (s : string)
| CTimestamp (d : Z).

(** A [DataFrame]: its columns in order, each with its cells. *)
Abbreviation DataFrame := (list (string * list cell)).

Definition nrows (df : DataFrame) : nat :=
  match df with
  | [] => 0
  | (_, column) :: _ => length column
  end.

Definition required_columns : list string :=
  ["Date"; "Description"; "Category"; "Amount"].

(** [pd.DataFrame(columns=['Date', 'Description', 'Category', 'Amount'])] *)
Definition empty_frame : DataFrame :=
  (λ col, (col, [])) <$> required_columns.

(** [if col not in df.columns: df[col] = None if col != 'Amount' else 0.0] *)
Definition add_missing (df : DataFrame) (col : string) : DataFrame :=
  if decide (col ∈ Dict.keys df) then df
  else df ++ [(col, replicate (nrows df)
                      (if decide (col ≠ "Amount") then CNone else CNumber 0))].

(** A frame whose columns all have the number of rows of the frame. *)
Definition rectangular (df : DataFrame) : Prop :=
  ∀ col column, (col, column) ∈ df → length column = nrows df.

Section World.

(** The calls that reach outside the program: [pd.read_csv] on a path,
    [pd.to_datetime] on a column, [open] for reading and [json.load]. *)
Variable read_csv : string → outcome DataFrame.
Variable to_datetime : list cell → outcome (list cell).
Variable open_read : string → outcome string.
Variable json_load : string → outcome CategoryStore.

(** The [try] block of [load_data]. *)
Definition load_data_body : outcome DataFrame :=
  df ← read_csv "finance_data.csv";
  let df := foldl add_missing df required_columns in
  match Dict.getitem df "Date" with
  | Some column =>
      dates ← to_datetime column;
      mret (Dict.update df "Date" (λ _, dates))
  | None => mret df
  end.

(** [load_data]; the message printed by the handler is not modelled. *)
Definition load_data : outcome DataFrame :=
  try_except_Exception load_data_body (λ e, mret empty_frame).

(** The [try] block of [load_categories]. *)
Definition load_categories_body : outcome CategoryStore :=
  f ← open_read "categories.json";
  json_load f.

Definition load_categories : outcome CategoryStore :=
  try_except load_categories_body (mret [("Other", [])]).

End World.

End Storage.

(** ** The access gate at the top of [main] *)

Module Session.

(** What one run of the script shows. *)
Inductive page :=
| LoginPage (report : option notice)
| Rerun (report : notice)
| MainApp.

(** One run of the script up to the main app. [session_state] is the value
    of [st.session_state.authenticated], absent in a fresh session; the other
    two arguments are the text of the access code input and whether the
    "Login" button was pressed. The run returns the value the session holds
    afterwards and what it showed. *)
Definition access_gate (session_state : option bool)
    (access_code : string) (login : bool) : bool * page :=
  let authenticated := default false session_state in
  if negb authenticated then
    if login then
      if decide (access_code = "ayoub2003") then
        (true, Rerun (st_success "Access granted!"))
      else (authenticated, LoginPage (Some (st_error "Invalid access code")))
    else (authenticated, LoginPage None)
  else (authenticated, MainApp).

(** The runs of one session, one per execution of the script (an
    interaction, or the rerun after a login), each with the state of the two
    widgets in it. *)
Fixpoint runs (session_state : option bool) (inputs : list (string * bool))
  : list page :=
  match inputs with
  | [] => []
  | (access_code, login) :: inputs' =>
      let '(authenticated, shown) := access_gate session_state access_code login in
      shown :: runs (Some authenticated) inputs'
  end.

End Session.

(** * Properties *)

(** ** Facts about [ascii_lower] and [contains] *)

Module PyStrFacts.
Import PyStr.

Lemma N_of_ascii_inj (a b : ascii) : N_of_ascii a = N_of_ascii b → a = b.
Proof.
  intros H. rewrite <- (ascii_N_embedding a), <- (ascii_N_embedding b).
  by rewrite H.
Qed.

Lemma is_upper_range (c : ascii) :
  is_upper c = true ↔ (65 ≤ N_of_ascii c ≤ 90)%N.
Proof.
  unfold is_upper. rewrite andb_true_iff, !N.leb_le. tauto.
Qed.

Lemma N_of_lower_ascii (c : ascii) :
  N_of_ascii (lower_ascii c)
  = if is_upper c then (N_of_ascii c + 32)%N else N_of_ascii c.
Proof.
  unfold lower_ascii. destruct (is_upper c) eqn:Hup; [|done].
  apply is_upper_range in Hup. apply N_ascii_embedding. lia.
Qed.

Lemma lower_ascii_eq_iff (a b : ascii) :
  lower_ascii a = lower_ascii b ↔ ascii_eq_ignore_case a b.
Proof.
  unfold ascii_eq_ignore_case. split.
  - intros H. apply (f_equal N_of_ascii) in H.
    rewrite !N_of_lower_ascii in H.
    destruct (is_upper a) eqn:Ha, (is_upper b) eqn:Hb.
    + left. apply N_of_ascii_inj. lia.
    + right; left. split; [done | lia].
    + right; right. split; [done | lia].
    + left. by apply N_of_ascii_inj.
  - intros [-> | [[Hup Hn] | [Hup Hn]]]; [done | |];
      apply N_of_ascii_inj; rewrite !N_of_lower_ascii, Hup;
      apply is_upper_range in Hup.
    + destruct (is_upper b) eqn:Hb; [apply is_upper_range in Hb; lia | lia].
    + destruct (is_upper a) eqn:Ha; [apply is_upper_range in Ha; lia | lia].
Qed.

Lemma lower_ascii_idemp (c : ascii) : lower_ascii (lower_ascii c) = lower_ascii c.
Proof.
  apply N_of_ascii_inj. rewrite (N_of_lower_ascii (lower_ascii c)).
  destruct (is_upper (lower_ascii c)) eqn:H; [|done].
  apply is_upper_range in H. rewrite N_of_lower_ascii in H.
  destruct (is_upper c) eqn:Hc; [apply is_upper_range in Hc; lia|].
  apply is_upper_range in H. congruence.
Qed.

Lemma lower_idemp (s : string) : ascii_lower (ascii_lower s) = ascii_lower s.
Proof. induction s as [|c s IH]; simpl; [done|]. by rewrite lower_ascii_idemp, IH. Qed.

Lemma lower_app (s t : string) : ascii_lower (s +:+ t) = ascii_lower s +:+ ascii_lower t.
Proof. induction s as [|c s IH]; simpl; [done|]. by rewrite IH. Qed.

(** A split of [ascii_lower s] comes from a split of [s]. *)
Lemma lower_app_inv (s x y : string) :
  ascii_lower s = x +:+ y → ∃ a b, s = a +:+ b ∧ ascii_lower a = x ∧ ascii_lower b = y.
Proof.
  revert s. induction x as [|c x IH]; intros s H; simpl in H.
  - by exists "", s.
  - destruct s as [|d s]; simpl in H; [done|].
    injection H as Hc Hs. destruct (IH _ Hs) as (a & b & -> & Ha & Hb).
    exists (String d a), b. simpl. by rewrite Hc, Ha.
Qed.

(** Differing only in letter case is having the same ascii_lower-case form. *)
Lemma eq_ignore_case_lower (s t : string) :
  eq_ignore_case s t ↔ ascii_lower s = ascii_lower t.
Proof.
  split.
  - induction 1 as [|a b s t Hab _ IH]; simpl; [done|].
    apply lower_ascii_eq_iff in Hab. by rewrite Hab, IH.
  - revert t. induction s as [|a s IH]; intros [|b t] H; simpl in H; try done.
    + constructor.
    + injection H as Hab Hst. constructor; [by apply lower_ascii_eq_iff | by apply IH].
Qed.

Lemma prefix_app (p s : string) :
  String.prefix p s = true ↔ ∃ post, s = p +:+ post.
Proof.
  revert s. induction p as [|c p IH]; intros s.
  - split; [intros _; by exists s | intros _; by destruct s].
  - destruct s as [|d s]; simpl; [split; [done | by intros [? ?]]|].
    destruct (ascii_dec c d) as [->|Hne].
    + rewrite IH. split; intros [post H]; exists post; [by rewrite H | by injection H].
    + split; [done | intros [post H]; injection H; congruence].
Qed.

(** [sub in s] holds exactly when [s] is [pre + sub + post]. *)
Lemma contains_app (sub s : string) :
  contains sub s = true ↔ ∃ pre post, s = pre +:+ sub +:+ post.
Proof.
  induction s as [|d s IH]; cbn [contains]; rewrite orb_true_iff, prefix_app.
  - split.
    + intros [[post H] | ?]; [by exists "", post | done].
    + intros (pre & post & H). left. exists post.
      destruct pre; [done | discriminate].
  - rewrite IH. split.
    + intros [[post H] | (pre & post & H)].
      * by exists "", post.
      * exists (String d pre), post. simpl. by rewrite H.
    + intros (pre & post & H). destruct pre as [|e pre]; simpl in H.
      * left. by exists post.
      * right. injection H as _ H. by exists pre, post.
Qed.

(** On lower-cased ASCII text the substring test decides containment up to
    letter case. *)
Lemma contains_lower (sub s : string) :
  contains (ascii_lower sub) (ascii_lower s) = true ↔ ci_contains sub s.
Proof.
  rewrite contains_app. unfold ci_contains. split.
  - intros (pre' & post' & H).
    apply lower_app_inv in H as (pre & rest & -> & Hpre & Hrest).
    apply lower_app_inv in Hrest as (mid & post & -> & Hmid & Hpost).
    exists pre, mid, post. split; [done | by apply eq_ignore_case_lower].
  - intros (pre & mid & post & -> & Heq). apply eq_ignore_case_lower in Heq.
    exists (ascii_lower pre), (ascii_lower post). by rewrite !lower_app, Heq.
Qed.

Lemma contains_empty (s : string) : contains "" s = true.
Proof. apply contains_app. by exists "", s. Qed.

Lemma contains_in_empty (sub : string) : contains sub "" = true → sub = "".
Proof.
  intros H. apply contains_app in H as (pre & post & H).
  destruct pre; [|discriminate]. destruct sub; [done | discriminate].
Qed.

Lemma ascii_lower_on_ascii : lower_on_ascii ascii_lower.
Proof. by intros s _. Qed.

Lemma ascii_lower_keeps_empty : lower_keeps_empty ascii_lower.
Proof. intros s. split; [by destruct s | by intros ->]. Qed.

End PyStrFacts.

(** ** The classifier *)

Module ClassifierSpec.
Import PyStr PyObj Classifier PyStrFacts.

Section Lower.

Variable lower : string → string.

(** The inner loop answers whether some keyword of the list matches the text
    whose lower-case form it is given. *)
Lemma any_keyword_in_iff (text : string) (keywords : list string) :
  any_keyword_in lower (lower text) keywords = true
  ↔ ∃ k, k ∈ keywords ∧ matches lower k text.
Proof.
  unfold matches. induction keywords as [|k keywords IH]; simpl.
  - split; [done | intros (k & Hk & _); by apply elem_of_nil in Hk].
  - destruct (contains (lower k) (lower text)) eqn:Hk.
    + split; [intros _ | done]. exists k. split; [by left | done].
    + rewrite IH. split; intros (k' & Hin & Hc).
      * exists k'. split; [by right | done].
      * apply elem_of_cons in Hin as [-> | Hin]; [congruence | by exists k'].
Qed.

Lemma any_keyword_in_false (text : string) (keywords : list string) :
  (∀ k, k ∈ keywords → ¬ matches lower k text) →
  any_keyword_in lower (lower text) keywords = false.
Proof.
  intros H. apply not_true_is_false. intros (k & Hin & Hc)%any_keyword_in_iff.
  by apply (H k).
Qed.

Lemma scan_key_or_other (text : string) (categories : CategoryStore) :
  scan lower text categories ∈ Dict.keys categories
  ∨ scan lower text categories = "Other".
Proof.
  unfold Dict.keys.
  induction categories as [|[C keywords] categories IH]; simpl; [by right|].
  destruct (any_keyword_in _ _ keywords).
  - left. by left.
  - destruct IH as [IH | IH]; [left; by right | by right].
Qed.

Lemma scan_no_match (text : string) (categories : CategoryStore) :
  (∀ C keywords k,
     (C, keywords) ∈ categories → k ∈ keywords → ¬ matches lower k text) →
  scan lower (lower text) categories = "Other".
Proof.
  intros H.
  induction categories as [|[C keywords] categories IH]; simpl; [done|].
  rewrite any_keyword_in_false.
  - apply IH. intros C' kws' k' Hin. apply (H C'). by right.
  - intros k. apply (H C). by left.
Qed.

(** The classifier on a description whose text [str] gives. *)
Lemma categorize_expense_str
    (description : pyobj) (text : string) (categories : CategoryStore) :
  str description = Returned text →
  categorize_expense lower description categories
  = Returned (scan lower (lower text) categories).
Proof. intros H. unfold categorize_expense. by rewrite H. Qed.

Lemma categorize_expense_returned
    (description : pyobj) (categories : CategoryStore) (C : string) :
  categorize_expense lower description categories = Returned C →
  ∃ text, str description = Returned text
          ∧ C = scan lower (lower text) categories.
Proof.
  unfold categorize_expense. destruct (str description) as [text | e]; [|done].
  intros [= <-]. by exists text.
Qed.

(** On ASCII text, a keyword matches exactly when it occurs in the
    description up to letter case. *)
Lemma matches_ascii (k text : string) :
  lower_on_ascii lower → is_ascii k = true → is_ascii text = true →
  matches lower k text ↔ ci_contains k text.
Proof.
  intros Hlower Hk Htext. unfold matches.
  rewrite (Hlower k Hk), (Hlower text Htext). apply contains_lower.
Qed.


(** C2. When no keyword of any category matches the description, the
    classifier returns the literal "Other"; the store may be empty and need
    not have "Other" among its keys. *)
Theorem classify_no_match_other
    (description : pyobj) (text : string) (categories : CategoryStore) :
  str description = Returned text →
  (∀ C keywords k,
     (C, keywords) ∈ categories → k ∈ keywords → ¬ matches lower k text) →
  categorize_expense lower description categories = Returned "Other".
Proof.
  intros Hstr H. rewrite (categorize_expense_str _ text) by done.
  f_equal. by apply scan_no_match.
Qed.

(** C3, as the code has it. Descriptions with the same lower-case form are
    classified alike; so are, in particular, ASCII descriptions that differ
    only in letter case. *)
Theorem classify_case_invariant (d1 d2 : string) (categories : CategoryStore) :
  (lower d1 = lower d2 →
   categorize_expense lower (PyStr d1) categories
   = categorize_expense lower (PyStr d2) categories)
  ∧ (lower_on_ascii lower →
     is_ascii d1 = true → is_ascii d2 = true → eq_ignore_case d1 d2 →
     categorize_expense lower (PyStr d1) categories
     = categorize_expense lower (PyStr d2) categories).
Proof.
  assert (lower d1 = lower d2 →
          categorize_expense lower (PyStr d1) categories
          = categorize_expense lower (PyStr d2) categories) as Hsame.
  { intros H. unfold categorize_expense. simpl. by rewrite H. }
  split; [done|]. intros Hlower H1 H2 Heq. apply Hsame.
  rewrite (Hlower d1 H1), (Hlower d2 H2). by apply eq_ignore_case_lower.
Qed.

(** C4, as the code has it. In a store none of whose keywords is the empty
    string, the empty description is classified as "Other"; with the empty
    store every description that [str] accepts is; a description that is not
    text is classified as its text form [str(description)] is; and the
    classifier raises exactly when [str(description)] raises. *)
Theorem classify_degenerate_inputs (categories : CategoryStore) :
  lower_keeps_empty lower →
  (∀ C keywords, (C, keywords) ∈ categories → "" ∉ keywords) →
  categorize_expense lower (PyStr "") categories = Returned "Other"
  ∧ (∀ description text,
       str description = Returned text →
       categorize_expense lower description [] = Returned "Other")
  ∧ (∀ description text,
       str description = Returned text →
       categorize_expense lower description categories
       = categorize_expense lower (PyStr text) categories)
  ∧ (∀ description e,
       categorize_expense lower description categories = Raised e
       ↔ str description = Raised e).
Proof.
  intros Hempty Hne. split; [|split; [|split]].
  - rewrite (categorize_expense_str _ "") by done. f_equal.
    apply scan_no_match. intros C keywords k HC Hk Hc.
    unfold matches in Hc. rewrite (proj2 (Hempty "") eq_refl) in Hc.
    apply contains_in_empty in Hc. apply Hempty in Hc as ->.
    by apply (Hne C keywords).
  - intros description text Hstr. by rewrite (categorize_expense_str _ text).
  - intros description text Hstr.
    by rewrite (categorize_expense_str _ text), (categorize_expense_str (PyStr text) text).
  - intros description e. unfold categorize_expense.
    destruct (str description) as [text | e']; simpl; [split; done | done].
Qed.

(** C10. The classifier returns for every text, and what it returns is a key
    of the store or the literal "Other". *)
Theorem classify_result_key_or_other (categories : CategoryStore) :
  (∀ text, ∃ C, categorize_expense lower (PyStr text) categories = Returned C)
  ∧ (∀ description C,
       categorize_expense lower description categories = Returned C →
       C ∈ Dict.keys categories ∨ C = "Other").
Proof.
  split.
  - intros text. eexists. by apply categorize_expense_str.
  - intros description C (text & _ & ->)%categorize_expense_returned.
    apply scan_key_or_other.
Qed.

End Lower.


Lemma classify_no_match_other_witness :
  categorize_expense ascii_lower (PyStr "Monthly rent") [("Food", ["grocery"; "lunch"])]
  = Returned "Other"
  ∧ ("Other" ∉ Dict.keys [("Food", ["grocery"; "lunch"])])
  ∧ categorize_expense ascii_lower (PyStr "Monthly rent") [] = Returned "Other".
Proof.
  split; [|split].
  - apply (classify_no_match_other ascii_lower _ "Monthly rent"); [reflexivity|].
    intros C keywords k HC Hk Hc.
    apply list_elem_of_singleton in HC. injection HC as -> ->.
    apply list_elem_of_In in Hk. simpl in Hk.
    destruct Hk as [<- | [<- | []]]; discriminate Hc.
  - intros H. apply list_elem_of_singleton in H. discriminate H.
  - apply (classify_no_match_other ascii_lower _ "Monthly rent"); [reflexivity|].
    intros C keywords k HC. by apply elem_of_nil in HC.
Defined.

(** Two Greek texts that differ only in letter case and are classified
    apart: a capital sigma at the end of a word is lower-cased to the final
    sigma, which the keyword does not hold. *)
Lemma classify_case_variants_apart :
  GreekText.differ_only_in_case "ΑΣ" "ασ"
  ∧ categorize_expense GreekText.lower (PyStr "ΑΣ") [("Greek", ["ασ"])]
    = Returned "Other"
  ∧ categorize_expense GreekText.lower (PyStr "ασ") [("Greek", ["ασ"])]
    = Returned "Greek".
Proof.
  split; [|split; reflexivity].
  unfold GreekText.differ_only_in_case. simpl. by repeat constructor.
Qed.

Lemma classify_case_invariant_witness :
  categorize_expense ascii_lower (PyStr "GROCERY run") default_categories
  = categorize_expense ascii_lower (PyStr "grocery run") default_categories.
Proof.
  apply (proj2 (classify_case_invariant ascii_lower "GROCERY run" "grocery run"
                  default_categories)).
  - apply ascii_lower_on_ascii.
  - reflexivity.
  - reflexivity.
  - apply eq_ignore_case_lower. reflexivity.
Defined.

(** With an empty keyword in the store the empty description is not
    classified as "Other": the empty string occurs in every string. And an
    integer too long for [str] makes the classifier raise. *)
Lemma classify_empty_description_empty_keyword :
  categorize_expense ascii_lower (PyStr "") [("Food", [""])] = Returned "Food"
  ∧ ¬ (∀ categories : CategoryStore,
         categorize_expense ascii_lower (PyStr "") categories = Returned "Other")
  ∧ categorize_expense ascii_lower (PyInt (10 ^ 5000)) [] = Raised ValueError.
Proof.
  split; [reflexivity|]. split.
  - intros H. specialize (H [("Food", [""])]). discriminate H.
  - vm_compute. reflexivity.
Qed.

Lemma classify_degenerate_inputs_witness :
  categorize_expense ascii_lower (PyStr "") default_categories = Returned "Other"
  ∧ (∀ description text,
       str description = Returned text →
       categorize_expense ascii_lower description [] = Returned "Other")
  ∧ (∀ description text,
       str description = Returned text →
       categorize_expense ascii_lower description default_categories
       = categorize_expense ascii_lower (PyStr text) default_categories)
  ∧ (∀ description e,
       categorize_expense ascii_lower description default_categories = Raised e
       ↔ str description = Raised e).
Proof.
  apply classify_degenerate_inputs; [apply ascii_lower_keeps_empty|].
  intros C keywords HC Hin.
  apply list_elem_of_In in HC. simpl in HC.
  destruct HC as [HC | [HC | [HC | [HC | [HC | []]]]]]; injection HC as <- <-;
    apply list_elem_of_In in Hin; simpl in Hin;
    repeat (destruct Hin as [Hin | Hin]; [discriminate Hin|]); done.
Defined.

(** A value that is not text is matched through its text form: [None]
    reads "none" once lowered. *)
Example classify_none_value :
  categorize_expense ascii_lower PyNone [("Food", ["no"])] = Returned "Food"
  ∧ categorize_expense ascii_lower (PyInt (-15)) [("Refund", ["-1"])]
    = Returned "Refund"
  ∧ categorize_expense ascii_lower (PyBool true) default_categories
    = Returned "Other".
Proof. repeat split. Qed.

(** Substring matching, not whole words: "gasket" is matched by "gas". *)
Example classify_gasket :
  categorize_expense ascii_lower (PyStr "New gasket") default_categories
  = Returned "Transport".
Proof. reflexivity. Qed.

End ClassifierSpec.

(** ** Dictionaries *)

Module DictFacts.
Import Dict.

Lemma getitem_None {V} (d : list (string * V)) (k : string) :
  getitem d k = None ↔ k ∉ keys d.
Proof.
  unfold keys. induction d as [|[k' v] d IH]; simpl.
  - split; [intros _; apply not_elem_of_nil | done].
  - rewrite not_elem_of_cons. destruct (decide (k' = k)) as [-> | Hne].
    + split; [done | by intros [? _]].
    + rewrite IH. split; [by intros ? | by intros [_ ?]].
Qed.

Lemma getitem_is_Some {V} (d : list (string * V)) (k : string) :
  is_Some (getitem d k) ↔ k ∈ keys d.
Proof.
  rewrite <- not_eq_None_Some, getitem_None.
  split; [apply dec_stable | by intros ? ?].
Qed.

Lemma getitem_update_eq {V} (d : list (string * V)) (k : string) (f : V → V) :
  getitem (update d k f) k = f <$> getitem d k.
Proof.
  induction d as [|[k' v] d IH]; simpl; [done|].
  destruct (decide (k' = k)) as [-> | Hne]; simpl.
  - by rewrite decide_True.
  - by rewrite decide_False.
Qed.

Lemma getitem_update_ne {V} (d : list (string * V)) (k k0 : string) (f : V → V) :
  k0 ≠ k → getitem (update d k f) k0 = getitem d k0.
Proof.
  intros Hne. induction d as [|[k' v] d IH]; simpl; [done|].
  destruct (decide (k' = k)) as [-> | Hk]; simpl.
  - by rewrite !decide_False.
  - destruct (decide (k' = k0)); [done | apply IH].
Qed.

Lemma keys_update {V} (d : list (string * V)) (k : string) (f : V → V) :
  keys (update d k f) = keys d.
Proof.
  unfold keys. induction d as [|[k' v] d IH]; [done|]. cbn [update].
  destruct (decide (k' = k)); rewrite !fmap_cons; [done | by rewrite IH].
Qed.

End DictFacts.

(** ** The category store *)

Module CategoriesSpec.
Import PyObj Categories Classifier DictFacts.

(** A name that is not a key makes the lookup raise [KeyError]: nothing is
    reported as a failure. An empty keyword is dropped without a report. *)
Lemma add_keyword_no_structured_failure :
  ("Travel" ∉ Dict.keys default_categories)
  ∧ add_keyword default_categories "Travel" "flight"
    = Raised (KeyError (PyStr "Travel"))
  ∧ ¬ (∀ (categories : CategoryStore) name keyword,
         name ∉ Dict.keys categories →
         ∃ result, add_keyword categories name keyword = Returned result)
  ∧ ("Food" ∈ Dict.keys default_categories)
  ∧ add_keyword default_categories "Food" "" = Returned (default_categories, None).
Proof.
  assert ("Travel" ∉ Dict.keys default_categories) as Habsent
    by by apply getitem_None.
  split; [done|]. split; [done|]. split; [|split; [by left | done]].
  intros H. destruct (H default_categories "Travel" "flight" Habsent) as [r Hr].
  discriminate Hr.
Qed.

(** C5, as the code has it. A non-empty keyword is appended as it is, without
    deduplication or case normalization, at the end of the keyword list of the
    named category when the name is a key; the other categories and the order
    of the keys stay as they were. An empty keyword leaves the store as it was
    and reports nothing. There is no category-not-found result: the name is
    taken from the keys of the store, and looking up a name that is not a key
    raises [KeyError]. *)
Theorem add_keyword_spec
    (categories : CategoryStore) (name keyword : string) :
  (∀ keywords,
     keyword ≠ "" → Dict.getitem categories name = Some keywords →
     ∃ categories' report,
       add_keyword categories name keyword = Returned (categories', Some (st_success report))
       ∧ Dict.getitem categories' name = Some (keywords ++ [keyword])
       ∧ (∀ other, other ≠ name →
            Dict.getitem categories' other = Dict.getitem categories other)
       ∧ Dict.keys categories' = Dict.keys categories)
  ∧ (keyword = "" → add_keyword categories name keyword = Returned (categories, None))
  ∧ (keyword ≠ "" → name ∉ Dict.keys categories →
     add_keyword categories name keyword = Raised (KeyError (PyStr name))).
Proof.
  unfold add_keyword. split; [|split].
  - intros keywords Hne Hget. rewrite decide_True, Hget by done.
    eexists _, _. split; [done|]. split; [|split].
    + by rewrite getitem_update_eq, Hget.
    + intros other Hother. by apply getitem_update_ne.
    + apply keys_update.
  - intros ->. by rewrite decide_False by (by intros ?).
  - intros Hne Hkey. apply getitem_None in Hkey. by rewrite decide_True, Hkey.
Qed.

Lemma add_keyword_spec_witness :
  (∃ categories' report,
     add_keyword default_categories "Transport" "Gas"
     = Returned (categories', Some (st_success report))
     ∧ Dict.getitem categories' "Transport" = Some (["uber"; "taxi"; "gas"] ++ ["Gas"])
     ∧ (∀ other, other ≠ "Transport" →
          Dict.getitem categories' other = Dict.getitem default_categories other)
     ∧ Dict.keys categories' = Dict.keys default_categories)
  ∧ add_keyword default_categories "Transport" "" = Returned (default_categories, None)
  ∧ add_keyword default_categories "Travel" "flight" = Raised (KeyError (PyStr "Travel")).
Proof.
  split; [|split].
  - apply (proj1 (add_keyword_spec default_categories "Transport" "Gas"));
      [discriminate | reflexivity].
  - apply (proj1 (proj2 (add_keyword_spec default_categories "Transport" ""))).
    reflexivity.
  - apply (proj2 (proj2 (add_keyword_spec default_categories "Travel" "flight")));
      [discriminate|].
    apply getitem_None. reflexivity.
Defined.

(** The store after a keyword that differs from a present one only in case. *)
Example add_keyword_keeps_duplicates :
  add_keyword [("Transport", ["uber"; "gas"]); ("Other", [])] "Transport" "Gas"
  = Returned ([("Transport", ["uber"; "gas"; "Gas"]); ("Other", [])],
              Some (st_success "Keyword 'Gas' added to Transport")).
Proof. reflexivity. Qed.

(** [add_category] refuses the empty name and a name that is already a key,
    with a warning, and otherwise adds the name last with no keyword. *)
Lemma add_category_spec (categories : CategoryStore) (name : string) :
  (name = "" ∨ name ∈ Dict.keys categories →
   ∃ msg, add_category categories name = (categories, st_warning msg))
  ∧ (name ≠ "" → name ∉ Dict.keys categories →
     ∃ msg, add_category categories name
            = (categories ++ [(name, [])], st_success msg)).
Proof.
  unfold add_category. split.
  - intros H. rewrite decide_False; [eauto|]. intros [? ?]. by destruct H.
  - intros H1 H2. rewrite decide_True by done. eauto.
Qed.

Lemma list_index_elem (l : list string) (x : string) :
  x ∈ l → ∃ i, list_index l x = Returned i ∧ l !! i = Some x.
Proof.
  induction l as [|y l IH]; [by intros ?%elem_of_nil|].
  intros Hx. simpl. destruct (decide (y = x)) as [-> | Hne].
  - by exists 0.
  - apply elem_of_cons in Hx as [-> | Hx]; [done|].
    destruct (IH Hx) as (i & -> & Hi). by exists (S i).
Qed.

Lemma list_index_not_elem (l : list string) (x : string) :
  x ∉ l → list_index l x = Raised ValueError.
Proof.
  induction l as [|y l IH]; [done|].
  intros [Hne Hx]%not_elem_of_cons. simpl.
  rewrite decide_False by done. by rewrite IH.
Qed.

(** X7. The select box finds the suggestion among the keys whenever
    "Other" is a key of the store. *)
Lemma suggested_index_defined (lower : string → string)
    (description : pyobj) (text : string) (categories : CategoryStore) :
  "Other" ∈ Dict.keys categories →
  str description = Returned text →
  ∃ i C,
    categorize_expense lower description categories = Returned C
    ∧ suggested_index lower description categories = Returned i
    ∧ Dict.keys categories !! i = Some C.
Proof.
  intros Hother Hstr. unfold suggested_index.
  rewrite (ClassifierSpec.categorize_expense_str lower _ text) by done. simpl.
  destruct (list_index_elem (Dict.keys categories)
              (scan lower (lower text) categories)) as (i & Hi & Hlookup).
  { destruct (ClassifierSpec.scan_key_or_other lower (lower text) categories)
      as [H | ->]; done. }
  by exists i, (scan lower (lower text) categories).
Qed.

End CategoriesSpec.

(** ** The ledger *)

Module LedgerSpec.
Import Ledger.

(** C6. An expense with an empty description or an amount that is not
    positive is refused with an error and the ledger stays as it was; any
    other expense is appended at the end of the ledger. *)
Theorem add_expense_validation
    (expenses_df : list Expense) (date : Z) (description category : string)
    (amount : Qc) :
  (description = "" ∨ (amount ≤ 0)%Qc →
   ∃ msg, add_expense expenses_df date description category amount
          = (expenses_df, st_error msg))
  ∧ (description ≠ "" → (0 < amount)%Qc →
     add_expense expenses_df date description category amount
     = (expenses_df ++
          [{| Date := date; Description := description;
              Category := category; Amount := amount |}],
        st_success "Expense added successfully!")).
Proof.
  unfold add_expense. split.
  - intros [-> | Hle].
    + rewrite decide_True by done. eauto.
    + destruct (decide (description = "")); [eauto|].
      rewrite decide_True by done. eauto.
  - intros Hd Hpos. rewrite decide_False by done.
    rewrite decide_False; [done|]. by apply Qclt_not_le.
Qed.

Lemma add_expense_validation_witness :
  (∃ msg, add_expense [] 19000 "Lunch" "Food" (Q2Qc 0) = ([], st_error msg))
  ∧ (∃ msg, add_expense [] 19000 "Lunch" "Food" (Q2Qc (-5)) = ([], st_error msg))
  ∧ (∃ msg, add_expense [] 19000 "" "Food" (Q2Qc (1 # 100)) = ([], st_error msg))
  ∧ add_expense [] 19000 "Lunch" "Food" (Q2Qc (1 # 100))
    = ([{| Date := 19000; Description := "Lunch";
           Category := "Food"; Amount := Q2Qc (1 # 100) |}],
       st_success "Expense added successfully!").
Proof.
  split; [|split; [|split]].
  - apply (proj1 (add_expense_validation [] 19000 "Lunch" "Food" (Q2Qc 0))).
    right. discriminate.
  - apply (proj1 (add_expense_validation [] 19000 "Lunch" "Food" (Q2Qc (-5)))).
    right. discriminate.
  - apply (proj1 (add_expense_validation [] 19000 "" "Food" (Q2Qc (1 # 100)))).
    left. reflexivity.
  - apply (proj2 (add_expense_validation [] 19000 "Lunch" "Food" (Q2Qc (1 # 100))));
      [discriminate | reflexivity].
Defined.

(** C7. The filter keeps exactly the expenses dated from [start_date] to
    [end_date], both included, and, unless the selection is "All", of the
    selected category; it keeps them in the order of the ledger. With "All",
    the selection of an untouched select box, no category test is made. *)
Theorem filter_expenses_spec
    (expenses_df : list Expense) (start_date end_date : Z)
    (selected_category : string) :
  filter_expenses expenses_df start_date end_date selected_category
  = filter (λ r, (start_date ≤ Date r ≤ end_date)%Z
                 ∧ (selected_category = "All" ∨ Category r = selected_category))
           expenses_df
  ∧ filter_expenses expenses_df start_date end_date selected_category
      `sublist_of` expenses_df
  ∧ filter_expenses expenses_df start_date end_date "All"
    = filter (λ r, (start_date ≤ Date r ≤ end_date)%Z) expenses_df
  ∧ (∀ categories, head (filter_options categories) = Some "All").
Proof.
  assert (filter_expenses expenses_df start_date end_date selected_category
          = filter (λ r, (start_date ≤ Date r ≤ end_date)%Z
                         ∧ (selected_category = "All" ∨ Category r = selected_category))
                   expenses_df) as Heq.
  { unfold filter_expenses. cbv zeta.
    destruct (decide (selected_category ≠ "All")) as [Hne | Hall].
    - rewrite list_filter_filter. apply list_filter_iff. intros r. tauto.
    - apply dec_stable in Hall. apply list_filter_iff. intros r. tauto. }
  split; [done|]. split; [rewrite Heq; apply sublist_filter|].
  split; [|done]. unfold filter_expenses. cbv zeta. by rewrite decide_False by (by intros ?).
Qed.

(** The expenses the filter returns, one by one. *)
Lemma elem_of_filter_expenses
    (expenses_df : list Expense) (start_date end_date : Z)
    (selected_category : string) (r : Expense) :
  r ∈ filter_expenses expenses_df start_date end_date selected_category
  ↔ r ∈ expenses_df
    ∧ (start_date ≤ Date r ≤ end_date)%Z
    ∧ (selected_category = "All" ∨ Category r = selected_category).
Proof.
  unfold filter_expenses. cbv zeta.
  destruct (decide (selected_category ≠ "All")) as [Hne | Hall].
  - rewrite !list_elem_of_filter. tauto.
  - apply dec_stable in Hall. rewrite list_elem_of_filter. tauto.
Qed.

(** A range that covers every date, with "All", returns the ledger. *)
Lemma filter_expenses_all (expenses_df : list Expense) (start_date end_date : Z) :
  (∀ r, r ∈ expenses_df → (start_date ≤ Date r ≤ end_date)%Z) →
  filter_expenses expenses_df start_date end_date "All" = expenses_df.
Proof.
  intros Hcover. unfold filter_expenses. cbv zeta.
  rewrite decide_False by (by intros ?).
  induction expenses_df as [|r df IH]; [done|].
  rewrite filter_cons_True by (apply Hcover; by left).
  f_equal. apply IH. intros r' Hr'. apply Hcover. by right.
Qed.

Lemma filter_none {A} (P : A → Prop) `{!∀ x, Decision (P x)} (l : list A) :
  (∀ x, x ∈ l → ¬ P x) → filter P l = [].
Proof.
  intros Hno. destruct (filter P l) as [|x l'] eqn:Hf; [done|].
  assert (x ∈ filter P l) as [HP Hx]%list_elem_of_filter by (rewrite Hf; by left).
  by destruct (Hno x).
Qed.

(** The groups, from any starting map. *)
Lemma groups_fold_lookup (df : list Expense) (acc : gmap string (list Qc)) (c : string) :
  foldl (λ acc r, <[Category r := default [] (acc !! Category r) ++ [Amount r]]> acc)
        acc df !! c
  = if decide (c ∈ Category <$> df)
    then Some (default [] (acc !! c)
               ++ (Amount <$> filter (λ r, Category r = c) df))
    else acc !! c.
Proof.
  revert acc. induction df as [|r df IH]; intros acc.
  - done.
  - cbn [foldl]. rewrite IH. rewrite fmap_cons.
    destruct (decide (Category r = c)) as [<- | Hc].
    + rewrite filter_cons_True by done. rewrite lookup_insert_eq.
      rewrite (decide_True (P := Category r ∈ Category r :: _)) by (by left).
      rewrite fmap_cons. unfold default at 1 3. cbn [from_option id].
      destruct (decide (Category r ∈ Category <$> df)) as [Hin | Hnin].
      * f_equal. by rewrite <- app_assoc.
      * f_equal.
        assert (filter (λ r0, Category r0 = Category r) df = []) as ->; [|done].
        apply filter_none. intros r' Hr' Hcat. apply Hnin.
        rewrite <- Hcat. by apply list_elem_of_fmap_2.
    + rewrite filter_cons_False by done. rewrite lookup_insert_ne by done.
      destruct (decide (c ∈ Category <$> df)) as [Hin | Hnin].
      * rewrite decide_True; [done | by right].
      * rewrite decide_False; [done|]. by intros [? | ?]%elem_of_cons.
Qed.

Lemma groups_lookup (df : list Expense) (c : string) :
  groups df !! c
  = if decide (c ∈ Category <$> df)
    then Some (Amount <$> filter (λ r, Category r = c) df)
    else None.
Proof. unfold groups. by rewrite groups_fold_lookup, lookup_empty. Qed.



(** The totals of (Food, 10.00), (Food, 5.50), (Transport, 3.25), for a
    summation that is exact on these amounts, as a sum of floats is when
    every partial sum is a float. *)
Example groupby_sum_example (group_sum : list Qc → Qc) :
  let df :=
    [ {| Date := 19000; Description := "Market"; Category := "Food";
         Amount := Q2Qc 10 |};
      {| Date := 19001; Description := "Lunch"; Category := "Food";
         Amount := Q2Qc (11 # 2) |};
      {| Date := 19001; Description := "Taxi"; Category := "Transport";
         Amount := Q2Qc (13 # 4) |} ] in
  group_sum [Q2Qc 10; Q2Qc (11 # 2)] = Q2Qc (31 # 2) →
  group_sum [Q2Qc (13 # 4)] = Q2Qc (13 # 4) →
  groupby_sum group_sum df !! "Food" = Some (Q2Qc (31 # 2))
  ∧ groupby_sum group_sum df !! "Transport" = Some (Q2Qc (13 # 4))
  ∧ dom (groupby_sum group_sum df) = {["Food"; "Transport"]}.
Proof.
  cbv zeta. intros HFood HTransport. split; [|split].
  - unfold groupby_sum. rewrite lookup_fmap, groups_lookup. simpl.
    by rewrite HFood.
  - unfold groupby_sum. rewrite lookup_fmap, groups_lookup. simpl.
    by rewrite HTransport.
  - unfold groupby_sum, groups. rewrite dom_fmap_L. cbn [foldl Category Amount].
    rewrite !dom_insert_L, dom_empty_L. set_solver.
Qed.

End LedgerSpec.

(** ** Loading *)

Module StorageSpec.
Import PyObj Storage.

Section World.

Variable read_csv : string → outcome DataFrame.
Variable to_datetime : list cell → outcome (list cell).
Variable open_read : string → outcome string.
Variable json_load : string → outcome CategoryStore.

(** The ledger fails to load when the file cannot be read or parsed, or when
    its dates cannot be converted. *)
Lemma load_data_body_raises (e : exn) :
  load_data_body read_csv to_datetime = Raised e
  ↔ read_csv "finance_data.csv" = Raised e
    ∨ ∃ df column,
        read_csv "finance_data.csv" = Returned df
        ∧ Dict.getitem (foldl add_missing df required_columns) "Date" = Some column
        ∧ to_datetime column = Raised e.
Proof.
  unfold load_data_body. destruct (read_csv "finance_data.csv") as [df | e']; simpl.
  - split.
    + intros H. right. exists df.
      destruct (Dict.getitem _ "Date") as [column|]; [|done].
      exists column. destruct (to_datetime column); [done|].
      simpl in H. by injection H as ->.
    + intros [? | (df' & column & [= <-] & -> & ->)]; done.
  - split; [intros [= ->]; by left|].
    intros [[= ->] | (? & ? & ? & _)]; done.
Qed.

(** The store fails to load when the file cannot be opened or is not JSON. *)
Lemma load_categories_body_raises (e : exn) :
  load_categories_body open_read json_load = Raised e
  ↔ open_read "categories.json" = Raised e
    ∨ ∃ f, open_read "categories.json" = Returned f ∧ json_load f = Raised e.
Proof.
  unfold load_categories_body. destruct (open_read "categories.json") as [f | e']; simpl.
  - split; [by eauto|]. by intros [? | (f' & [= <-] & ?)].
  - split; [intros [= ->]; by left|].
    intros [[= ->] | (? & ? & _)]; done.
Qed.

(** C9. When loading fails, the loaders answer with a default and raise
    nothing: [load_data] the empty frame with the columns Date, Description,
    Category and Amount, [load_categories] the store with the one category
    "Other" and no keyword. *)
Theorem load_failure_falls_back :
  (∀ e, is_Exception e = true →
        load_data_body read_csv to_datetime = Raised e →
        load_data read_csv to_datetime = Returned empty_frame)
  ∧ Dict.keys empty_frame = ["Date"; "Description"; "Category"; "Amount"]
  ∧ (∀ col cells, (col, cells) ∈ empty_frame → cells = [])
  ∧ (∀ e, load_categories_body open_read json_load = Raised e →
          load_categories open_read json_load = Returned [("Other", [])]).
Proof.
  split; [|split; [done | split]].
  - intros e He Hbody. unfold load_data. rewrite Hbody. simpl. by rewrite He.
  - intros col cells Hin. apply list_elem_of_In in Hin. simpl in Hin.
    repeat (destruct Hin as [[= _ <-] | Hin]; [done|]). done.
  - intros e Hbody. unfold load_categories. by rewrite Hbody.
Qed.

(** [load_categories] returns in every case. *)
Lemma load_categories_returns :
  ∃ categories, load_categories open_read json_load = Returned categories.
Proof.
  unfold load_categories.
  destruct (load_categories_body open_read json_load); simpl; eauto.
Qed.

(** [load_data] raises nothing that [except Exception] catches. *)
Lemma load_data_raises_no_Exception (e : exn) :
  load_data read_csv to_datetime = Raised e → is_Exception e = false.
Proof.
  unfold load_data.
  destruct (load_data_body read_csv to_datetime) as [df | e']; simpl; [done|].
  destruct (is_Exception e') eqn:He'; [done|]. by intros [= <-].
Qed.

End World.

(** A missing ledger file, a ledger with a date that does not parse, and a
    category file that is not JSON. *)
Lemma load_failure_falls_back_witness :
  load_data (λ _, Raised FileNotFoundError) (λ column, Returned column)
  = Returned empty_frame
  ∧ load_data (λ _, Returned [("Date", [CText "soon"]); ("Amount", [CNumber 1])])
              (λ _, Raised ValueError)
    = Returned empty_frame
  ∧ load_categories (λ _, Returned "{") (λ _, Raised JSONDecodeError)
    = Returned [("Other", [])].
Proof.
  split; [|split].
  - by apply (proj1 (load_failure_falls_back
                       (λ _, Raised FileNotFoundError) (λ column, Returned column)
                       (λ _, Returned "{") (λ _, Raised JSONDecodeError))
                FileNotFoundError).
  - by apply (proj1 (load_failure_falls_back
                       (λ _, Returned [("Date", [CText "soon"]); ("Amount", [CNumber 1])])
                       (λ _, Raised ValueError)
                       (λ _, Returned "{") (λ _, Raised JSONDecodeError))
                ValueError).
  - by apply (proj2 (proj2 (proj2 (load_failure_falls_back
                       (λ _, Raised FileNotFoundError) (λ column, Returned column)
                       (λ _, Returned "{") (λ _, Raised JSONDecodeError))))
                JSONDecodeError).
Defined.

(** A file that parses is returned as parsed, with the columns it lacks
    added: no fallback is involved. *)
Example load_data_adds_columns :
  load_data (λ _, Returned [("Date", [CText "2024-01-05"]); ("Amount", [CNumber 1])])
            (λ _, Returned [CTimestamp 19727])
  = Returned [("Date", [CTimestamp 19727]); ("Amount", [CNumber 1]);
              ("Description", [CNone]); ("Category", [CNone])].
Proof. reflexivity. Qed.

End StorageSpec.

(** * Further properties of the code *)

(** ** The classifier, and the store it reads *)

Module ClassifierProps.
Import PyStr PyObj Classifier Categories PyStrFacts ClassifierSpec DictFacts.

Section Lower.

Variable lower : string → string.

(** A way to check on a given store that no keyword matches. *)
Lemma no_match_Forall (text : string) (categories : CategoryStore) :
  Forall (λ entry, any_keyword_in lower (lower text) entry.2 = false) categories →
  ∀ C keywords k,
    (C, keywords) ∈ categories → k ∈ keywords → ¬ matches lower k text.
Proof.
  intros Hall C keywords k HC Hk Hc.
  rewrite Forall_forall in Hall. specialize (Hall _ HC). simpl in Hall.
  assert (any_keyword_in lower (lower text) keywords = true) as Htrue
    by (apply any_keyword_in_iff; eauto).
  congruence.
Qed.

Lemma any_keyword_in_app (text : string) (keywords keywords' : list string) :
  any_keyword_in lower text (keywords ++ keywords')
  = any_keyword_in lower text keywords || any_keyword_in lower text keywords'.
Proof.
  induction keywords as [|k keywords IH]; simpl; [done|].
  by destruct (contains (lower k) text).
Qed.

(** The inner loop reads the lower-cased keywords as a set. *)
Lemma any_keyword_in_fmap (text : string) (keywords : list string) :
  any_keyword_in lower text keywords = true
  ↔ ∃ x, x ∈ lower <$> keywords ∧ contains x text = true.
Proof.
  induction keywords as [|k keywords IH]; cbn [any_keyword_in].
  - split; [done | intros (x & Hx & _); by apply elem_of_nil in Hx].
  - rewrite fmap_cons. destruct (contains (lower k) text) eqn:Hk.
    + split; [intros _ | done]. exists (lower k). split; [by left | done].
    + rewrite IH. split; intros (x & Hin & Hc).
      * exists x. split; [by right | done].
      * apply elem_of_cons in Hin as [-> | Hin]; [congruence | by exists x].
Qed.

Lemma any_keyword_in_same (text : string) (keywords keywords' : list string) :
  same_keywords lower keywords keywords' →
  any_keyword_in lower text keywords = any_keyword_in lower text keywords'.
Proof.
  intros Hsame.
  destruct (any_keyword_in lower text keywords) eqn:H1,
           (any_keyword_in lower text keywords') eqn:H2; try done.
  - apply any_keyword_in_fmap in H1 as (x & Hx & Hc).
    assert (any_keyword_in lower text keywords' = true) as H3; [|congruence].
    apply any_keyword_in_fmap. exists x. split; [by apply Hsame | done].
  - apply any_keyword_in_fmap in H2 as (x & Hx & Hc).
    assert (any_keyword_in lower text keywords = true) as H3; [|congruence].
    apply any_keyword_in_fmap. exists x. split; [by apply Hsame | done].
Qed.

(** X1. Every answer of the classifier is accounted for: either no keyword
    of the store matches the description and the answer is "Other", or the
    answer is the name of the first category of the store that has a
    matching keyword. *)
Theorem classify_explained
    (description : pyobj) (text : string) (categories : CategoryStore) :
  str description = Returned text →
  (categorize_expense lower description categories = Returned "Other"
   ∧ ∀ C keywords k,
       (C, keywords) ∈ categories → k ∈ keywords → ¬ matches lower k text)
  ∨ ∃ before C keywords after k,
      categorize_expense lower description categories = Returned C
      ∧ categories = before ++ (C, keywords) :: after
      ∧ k ∈ keywords
      ∧ matches lower k text
      ∧ ∀ D keywordsD kD,
          (D, keywordsD) ∈ before → kD ∈ keywordsD → ¬ matches lower kD text.
Proof.
  intros Hstr. rewrite (categorize_expense_str lower _ text) by done.
  induction categories as [|[C keywords] categories IH]; simpl.
  - left. split; [done|]. intros C keywords k HC. by apply elem_of_nil in HC.
  - destruct (any_keyword_in lower (lower text) keywords) eqn:Hany.
    + right. apply any_keyword_in_iff in Hany as (k & Hk & Hc).
      exists [], C, keywords, categories, k. repeat split; [done..|].
      intros D keywordsD kD HD. by apply elem_of_nil in HD.
    + assert (∀ k, k ∈ keywords → ¬ matches lower k text) as Hnone.
      { intros k Hk Hc.
        assert (any_keyword_in lower (lower text) keywords = true)
          by (apply any_keyword_in_iff; eauto).
        congruence. }
      destruct IH as [[Hother Hno]
                     | (before & C' & kws & after & k & Hres & Heq & Hk & Hc & Hno)].
      * left. split; [done|]. intros D kwsD kD [[= -> ->] | HD]%elem_of_cons;
          [apply Hnone | by apply (Hno D)].
      * right. exists ((C, keywords) :: before), C', kws, after, k.
        split; [done|]. split; [simpl; by rewrite <- Heq|].
        split; [done|]. split; [done|].
        intros D kwsD kD [[= -> ->] | HD]%elem_of_cons;
          [apply Hnone | by apply (Hno D)].
Qed.

(** X2. The classifier reads each keyword list as the set of its
    lower-cased keywords: stores with the same category names in the same
    order, and for each category the same lower-cased keywords whatever their
    order and repetition, classify every description alike. *)
Theorem classify_same_store
    (description : pyobj) (categories categories' : CategoryStore) :
  same_store lower categories categories' →
  categorize_expense lower description categories
  = categorize_expense lower description categories'.
Proof.
  intros Hsame. unfold categorize_expense.
  destruct (str description) as [text | e]; simpl; [|done]. f_equal.
  induction Hsame as [|[C keywords] [C' keywords'] categories categories'
                       [HC Hkw] _ IH]; simpl; [done|].
  simpl in HC, Hkw. subst C'.
  rewrite (any_keyword_in_same (lower text) keywords keywords' Hkw).
  by destruct (any_keyword_in lower (lower text) keywords').
Qed.

(** The classification after a keyword was appended to a category. *)
Lemma scan_update_append (text : string) (categories : CategoryStore)
    (name kw : string) :
  let categories' := Dict.update categories name (λ keywords, keywords ++ [kw]) in
  (contains (lower kw) text = false →
   scan lower text categories' = scan lower text categories)
  ∧ (scan lower text categories' = scan lower text categories
     ∨ scan lower text categories' = name)
  ∧ (contains (lower kw) text = true →
     name ∈ Dict.keys categories →
     Forall (λ entry, any_keyword_in lower text entry.2 = false) categories →
     scan lower text categories' = name).
Proof.
  cbv zeta. induction categories as [|[C keywords] categories IH]; simpl.
  - split; [done|]. split; [by left|]. by intros _ ?%elem_of_nil.
  - destruct IH as (IH1 & IH2 & IH3).
    destruct (decide (C = name)) as [-> | Hne]; simpl.
    + rewrite any_keyword_in_app. simpl.
      destruct (any_keyword_in lower text keywords) eqn:Hany; simpl.
      * split; [done|]. split; [by left|]. intros _ _ Hall.
        apply Forall_cons in Hall as [Hall _]. simpl in Hall. congruence.
      * destruct (contains (lower kw) text) eqn:Hkw.
        -- split; [done|]. split; [by right | done].
        -- split; [done|]. split; [by left | done].
    + destruct (any_keyword_in lower text keywords) eqn:Hany.
      * split; [done|]. split; [by left|]. intros _ _ Hall.
        apply Forall_cons in Hall as [Hall _]. simpl in Hall. congruence.
      * split; [done|]. split; [done|]. intros Hkw Hin Hall.
        apply Forall_cons in Hall as [_ Hall].
        apply elem_of_cons in Hin as [-> | Hin]; [done|]. by apply IH3.
Qed.

Lemma add_keyword_returned (categories categories' : CategoryStore)
    (name kw : string) (report : option notice) :
  add_keyword categories name kw = Returned (categories', report) →
  (kw = "" ∧ categories' = categories)
  ∨ (kw ≠ "" ∧ name ∈ Dict.keys categories
     ∧ categories' = Dict.update categories name (λ keywords, keywords ++ [kw])).
Proof.
  unfold add_keyword. destruct (decide (kw ≠ "")) as [Hne | He].
  - destruct (Dict.getitem categories name) as [keywords|] eqn:Hget; [|done].
    intros [= <- _]. right. split; [done|]. split; [|done].
    apply getitem_is_Some. by rewrite Hget.
  - apply dec_stable in He. intros [= <- _]. by left.
Qed.

(** X3. Teaching a keyword: when a description matched no keyword of the
    store and matches the keyword just added to a category, the classifier
    answers that category from then on. *)
Theorem add_keyword_teaches
    (description : pyobj) (text : string) (categories categories' : CategoryStore)
    (name kw : string) (report : option notice) :
  add_keyword categories name kw = Returned (categories', report) →
  kw ≠ "" →
  str description = Returned text →
  matches lower kw text →
  (∀ C keywords k,
     (C, keywords) ∈ categories → k ∈ keywords → ¬ matches lower k text) →
  categorize_expense lower description categories' = Returned name.
Proof.
  intros [[-> _] | (_ & Hin & ->)]%add_keyword_returned Hne Hstr Hkw Hno; [done|].
  rewrite (categorize_expense_str lower _ text) by done. f_equal.
  apply scan_update_append; [done..|].
  apply Forall_forall. intros [C keywords] HC. simpl.
  apply any_keyword_in_false. intros k. by apply (Hno C).
Qed.

(** X4. Adding a keyword changes the classification of a description only
    when the description matches the keyword, and then only to the category
    the keyword went to. *)
Theorem add_keyword_changes_little
    (description : pyobj) (text : string) (categories categories' : CategoryStore)
    (name kw : string) (report : option notice) :
  add_keyword categories name kw = Returned (categories', report) →
  str description = Returned text →
  (¬ matches lower kw text →
   categorize_expense lower description categories'
   = categorize_expense lower description categories)
  ∧ (categorize_expense lower description categories'
     = categorize_expense lower description categories
     ∨ categorize_expense lower description categories' = Returned name).
Proof.
  intros [[_ ->] | (_ & _ & ->)]%add_keyword_returned Hstr;
    [split; [done | by left]|].
  rewrite !(categorize_expense_str lower _ text) by done.
  destruct (scan_update_append (lower text) categories name kw)
    as (Hframe & Hcases & _).
  split.
  - intros Hno. f_equal. apply Hframe. by apply not_true_is_false.
  - destruct Hcases as [-> | ->]; [by left | by right].
Qed.

End Lower.

Lemma classify_explained_witness :
  (categorize_expense ascii_lower (PyStr "Taxi home") default_categories
   = Returned "Other"
   ∧ ∀ C keywords k,
       (C, keywords) ∈ default_categories → k ∈ keywords →
       ¬ matches ascii_lower k "Taxi home")
  ∨ ∃ before C keywords after k,
      categorize_expense ascii_lower (PyStr "Taxi home") default_categories
      = Returned C
      ∧ default_categories = before ++ (C, keywords) :: after
      ∧ k ∈ keywords
      ∧ matches ascii_lower k "Taxi home"
      ∧ ∀ D keywordsD kD,
          (D, keywordsD) ∈ before → kD ∈ keywordsD →
          ¬ matches ascii_lower kD "Taxi home".
Proof. apply classify_explained. reflexivity. Defined.

Lemma classify_same_store_witness :
  categorize_expense ascii_lower (PyStr "Gasoline")
    [("Transport", ["Taxi"; "gas"]); ("Other", [])]
  = categorize_expense ascii_lower (PyStr "Gasoline")
      [("Transport", ["GAS"; "taxi"; "gas"]); ("Other", [])].
Proof.
  apply classify_same_store. unfold same_store.
  constructor; [split; [done|] | constructor; [by split | constructor]].
  intros x. simpl. split; intros Hx; apply list_elem_of_In in Hx; simpl in Hx;
    apply list_elem_of_In; simpl; tauto.
Defined.

Lemma add_keyword_teaches_witness :
  categorize_expense ascii_lower (PyStr "Monthly RENT")
    [ ("Food", ["grocery"; "restaurant"; "lunch"]);
      ("Transport", ["uber"; "taxi"; "gas"]);
      ("Entertainment", ["movie"; "game"; "concert"]);
      ("Bills", ["electric"; "water"; "internet"; "rent"]);
      ("Other", []) ]
  = Returned "Bills".
Proof.
  apply (add_keyword_teaches ascii_lower (PyStr "Monthly RENT") "Monthly RENT"
           default_categories _ "Bills" "rent"
           (Some (st_success "Keyword 'rent' added to Bills"))).
  - reflexivity.
  - discriminate.
  - reflexivity.
  - reflexivity.
  - apply no_match_Forall. repeat constructor.
Defined.

Lemma add_keyword_changes_little_witness :
  (¬ matches ascii_lower "taxi" "Lunch menu" →
   categorize_expense ascii_lower (PyStr "Lunch menu")
     (Dict.update default_categories "Transport" (λ keywords, keywords ++ ["taxi"]))
   = categorize_expense ascii_lower (PyStr "Lunch menu") default_categories)
  ∧ (categorize_expense ascii_lower (PyStr "Lunch menu")
       (Dict.update default_categories "Transport" (λ keywords, keywords ++ ["taxi"]))
     = categorize_expense ascii_lower (PyStr "Lunch menu") default_categories
     ∨ categorize_expense ascii_lower (PyStr "Lunch menu")
         (Dict.update default_categories "Transport" (λ keywords, keywords ++ ["taxi"]))
       = Returned "Transport").
Proof.
  apply (add_keyword_changes_little ascii_lower (PyStr "Lunch menu") "Lunch menu"
           default_categories _ "Transport" "taxi"
           (Some (st_success "Keyword 'taxi' added to Transport"))).
  - reflexivity.
  - reflexivity.
Defined.

End ClassifierProps.

(** ** The "Categories" tab and the category select box *)

Module CategoriesProps.
Import PyStr PyObj Classifier Categories PyStrFacts ClassifierSpec DictFacts
       CategoriesSpec.

Lemma getitem_app_Some {V} (d d' : list (string * V)) (k : string) (v : V) :
  Dict.getitem d k = Some v → Dict.getitem (d ++ d') k = Some v.
Proof.
  induction d as [|[k' v'] d IH]; simpl; [done|].
  by destruct (decide (k' = k)).
Qed.

Lemma scan_app_no_keywords (lower : string → string)
    (text : string) (categories : CategoryStore) (name : string) :
  scan lower text (categories ++ [(name, [])]) = scan lower text categories.
Proof.
  induction categories as [|[C keywords] categories IH]; simpl; [done|].
  by rewrite IH.
Qed.

(** X5. Adding a category keeps the store sound: the category names stay
    distinct, no category that was there loses or changes its keywords (adding
    a name again does not reset it), and a name that is not empty is a
    category afterwards. *)
Theorem add_category_keeps_store (categories : CategoryStore) (name : string) :
  NoDup (Dict.keys categories) →
  NoDup (Dict.keys (add_category categories name).1)
  ∧ (∀ k keywords,
       Dict.getitem categories k = Some keywords →
       Dict.getitem (add_category categories name).1 k = Some keywords)
  ∧ (name ≠ "" → name ∈ Dict.keys (add_category categories name).1).
Proof.
  intros Hnodup. unfold add_category.
  destruct (decide (name ≠ "" ∧ name ∉ Dict.keys categories)) as [[Hne Hfresh] | Hno];
    simpl.
  - split; [|split].
    + unfold Dict.keys in *. rewrite fmap_app. simpl.
      apply NoDup_app. split; [done|]. split; [|apply NoDup_singleton].
      intros k Hk ->%list_elem_of_singleton. done.
    + intros k keywords. apply getitem_app_Some.
    + intros _. unfold Dict.keys. rewrite fmap_app. simpl.
      apply elem_of_app. right. by left.
  - split; [done|]. split; [done|]. intros Hne.
    destruct (decide (name ∈ Dict.keys categories)); [done|].
    by destruct Hno.
Qed.

Lemma add_category_keeps_store_witness :
  NoDup (Dict.keys (add_category default_categories "Travel").1)
  ∧ (∀ k keywords,
       Dict.getitem default_categories k = Some keywords →
       Dict.getitem (add_category default_categories "Travel").1 k = Some keywords)
  ∧ ("Travel" ≠ "" → "Travel" ∈ Dict.keys (add_category default_categories "Travel").1).
Proof.
  apply add_category_keeps_store. apply (bool_decide_unpack _). reflexivity.
Defined.

(** X6. A new category has no keyword, so adding one changes no
    classification. *)
Theorem add_category_classification_unchanged (lower : string → string)
    (description : pyobj) (categories : CategoryStore) (name : string) :
  categorize_expense lower description (add_category categories name).1
  = categorize_expense lower description categories.
Proof.
  unfold add_category, categorize_expense.
  destruct (decide (name ≠ "" ∧ name ∉ Dict.keys categories)); simpl; [|done].
  destruct (str description) as [text | e]; simpl; [|done].
  by rewrite scan_app_no_keywords.
Qed.

(** A category can be added once: the second attempt is refused and leaves
    the store as the first one made it. *)
Lemma add_category_twice (categories : CategoryStore) (name : string) :
  ∃ msg,
    add_category (add_category categories name).1 name
    = ((add_category categories name).1, st_warning msg).
Proof.
  unfold add_category at 2 3.
  destruct (decide (name ≠ "" ∧ name ∉ Dict.keys categories)) as [[Hne Hfresh] | Hno];
    simpl.
  - unfold add_category. rewrite decide_False; [eauto|]. intros [_ Hnot].
    apply Hnot. unfold Dict.keys. rewrite fmap_app. simpl.
    apply elem_of_app. right. by left.
  - unfold add_category. rewrite decide_False by done. eauto.
Qed.

Lemma suggested_index_defined_witness :
  ∃ i C,
    categorize_expense ascii_lower (PyStr "Taxi home") default_categories
    = Returned C
    ∧ suggested_index ascii_lower (PyStr "Taxi home") default_categories
      = Returned i
    ∧ Dict.keys default_categories !! i = Some C.
Proof.
  apply (suggested_index_defined ascii_lower (PyStr "Taxi home") "Taxi home").
  - do 4 right. left.
  - reflexivity.
Defined.

(** X8. In a store without the category "Other", a description that
    matches no keyword leaves the select box without an entry to preselect:
    the index lookup raises [ValueError]. *)
Theorem suggested_index_raises (lower : string → string)
    (description : pyobj) (text : string) (categories : CategoryStore) :
  "Other" ∉ Dict.keys categories →
  str description = Returned text →
  (∀ C keywords k,
     (C, keywords) ∈ categories → k ∈ keywords → ¬ matches lower k text) →
  suggested_index lower description categories = Raised ValueError.
Proof.
  intros Hother Hstr Hno. unfold suggested_index.
  rewrite (categorize_expense_str lower _ text) by done. simpl.
  rewrite scan_no_match by done. by apply list_index_not_elem.
Qed.

Lemma suggested_index_raises_witness :
  suggested_index ascii_lower (PyStr "")
    [("Food", ["grocery"; "lunch"]); ("Bills", ["water"])]
  = Raised ValueError.
Proof.
  apply (suggested_index_raises ascii_lower (PyStr "") "").
  - intros H. apply list_elem_of_In in H. simpl in H.
    destruct H as [H | [H | []]]; discriminate H.
  - reflexivity.
  - apply ClassifierProps.no_match_Forall. repeat constructor.
Defined.

End CategoriesProps.

(** ** The ledger: adding and filtering *)

Module LedgerProps.
Import Ledger LedgerSpec.

Lemma add_expense_unchanged_or_appended
    (expenses_df : list Expense) (date : Z)
    (description category : string) (amount : Qc) :
  (add_expense expenses_df date description category amount).1 = expenses_df
  ∨ (description ≠ "" ∧ (0 < amount)%Qc
     ∧ (add_expense expenses_df date description category amount).1
       = expenses_df ++ [{| Date := date; Description := description;
                            Category := category; Amount := amount |}]).
Proof.
  unfold add_expense.
  destruct (decide (description = "")); [by left|].
  destruct (decide (amount ≤ 0)%Qc) as [|Hpos]; [by left|].
  right. split; [done|]. split; [|done]. by apply Qcnot_le_lt.
Qed.

(** X9. The button keeps the ledger valid: when every expense of the
    ledger has a description and a positive amount, so has every expense of
    the ledger after the button was pressed, whatever was entered. *)
Theorem add_expense_keeps_valid
    (expenses_df : list Expense) (date : Z)
    (description category : string) (amount : Qc) :
  Forall valid_expense expenses_df →
  Forall valid_expense
    (add_expense expenses_df date description category amount).1.
Proof.
  intros Hvalid.
  destruct (add_expense_unchanged_or_appended
              expenses_df date description category amount)
    as [-> | (Hd & Ha & ->)]; [done|].
  apply Forall_app. split; [done|]. by apply Forall_singleton.
Qed.

Lemma add_expense_keeps_valid_witness :
  Forall valid_expense (add_expense [] 19000 "Lunch" "Food" (Q2Qc (25 # 2))).1
  ∧ Forall valid_expense (add_expense [] 19000 "Lunch" "Food" (Q2Qc (-3))).1.
Proof.
  split; apply add_expense_keeps_valid; constructor.
Defined.

Lemma filter_expenses_as_filter
    (expenses_df : list Expense) (start_date end_date : Z)
    (selected_category : string) :
  filter_expenses expenses_df start_date end_date selected_category
  = filter (λ r, (start_date ≤ Date r ≤ end_date)%Z
                 ∧ (selected_category = "All" ∨ Category r = selected_category))
           expenses_df.
Proof.
  unfold filter_expenses. cbv zeta.
  destruct (decide (selected_category ≠ "All")) as [Hne | Hall].
  - rewrite list_filter_filter. apply list_filter_iff. intros r. tauto.
  - apply dec_stable in Hall. apply list_filter_iff. intros r. tauto.
Qed.

(** X11. A narrower date range shows a part of what the wider one shows,
    in the same order; a range whose start lies after its end shows
    nothing. *)
Theorem filter_expenses_range
    (expenses_df : list Expense) (start_date end_date start_date' end_date' : Z)
    (selected_category : string) :
  (start_date' ≤ start_date)%Z → (end_date ≤ end_date')%Z →
  filter_expenses expenses_df start_date end_date selected_category
    `sublist_of`
    filter_expenses expenses_df start_date' end_date' selected_category
  ∧ ((end_date < start_date)%Z →
     filter_expenses expenses_df start_date end_date selected_category = []).
Proof.
  intros Hs He. rewrite !filter_expenses_as_filter. split.
  - set (P := λ r, (start_date ≤ Date r ≤ end_date)%Z
                   ∧ (selected_category = "All" ∨ Category r = selected_category)).
    set (Q := λ r, (start_date' ≤ Date r ≤ end_date')%Z
                   ∧ (selected_category = "All" ∨ Category r = selected_category)).
    assert (filter P expenses_df = filter P (filter Q expenses_df)) as ->.
    { rewrite list_filter_filter. apply list_filter_iff. intros r.
      unfold P, Q. split; [|tauto]. intros [[? ?] ?]. repeat split; [done..|lia|lia|done]. }
    apply sublist_filter.
  - intros Hinv. apply filter_none. intros r _ [[? ?] _]. lia.
Qed.

Lemma filter_expenses_range_witness :
  let df :=
    [ {| Date := 19003; Description := "Market"; Category := "Food";
         Amount := Q2Qc 10 |};
      {| Date := 19001; Description := "Taxi"; Category := "Transport";
         Amount := Q2Qc (13 # 4) |} ] in
  filter_expenses df 19002 19003 "All" `sublist_of` filter_expenses df 19001 19003 "All"
  ∧ ((19003 < 19002)%Z → filter_expenses df 19002 19003 "All" = []).
Proof.
  cbv zeta. apply filter_expenses_range; lia.
Defined.

End LedgerProps.

(** ** Loading the ledger *)

Module StorageProps.
Import PyObj Storage DictFacts StorageSpec.

Lemma getitem_app_l {V} (d d' : list (string * V)) (k : string) :
  k ∈ Dict.keys d → Dict.getitem (d ++ d') k = Dict.getitem d k.
Proof.
  intros [v Hv]%getitem_is_Some. rewrite Hv.
  by apply CategoriesProps.getitem_app_Some.
Qed.

Lemma keys_add_missing (df : DataFrame) (col : string) :
  Dict.keys (add_missing df col)
  = Dict.keys df ++ (if decide (col ∈ Dict.keys df) then [] else [col]).
Proof.
  unfold add_missing. destruct (decide (col ∈ Dict.keys df)).
  - by rewrite app_nil_r.
  - unfold Dict.keys. by rewrite fmap_app.
Qed.

Lemma getitem_add_missing (df : DataFrame) (col k : string) :
  k ∈ Dict.keys df → Dict.getitem (add_missing df col) k = Dict.getitem df k.
Proof.
  intros Hk. unfold add_missing. destruct (decide (col ∈ Dict.keys df)); [done|].
  by apply getitem_app_l.
Qed.

Lemma nrows_add_missing (df : DataFrame) (col : string) :
  nrows (add_missing df col) = nrows df.
Proof.
  unfold add_missing. destruct (decide (col ∈ Dict.keys df)); [done|].
  by destruct df as [|[c column] df].
Qed.

Lemma rectangular_add_missing (df : DataFrame) (col : string) :
  rectangular df → rectangular (add_missing df col).
Proof.
  intros Hrect c column Hin. rewrite nrows_add_missing.
  unfold add_missing in Hin. destruct (decide (col ∈ Dict.keys df)).
  - by apply (Hrect c).
  - apply elem_of_app in Hin as [Hin | [= _ ->]%list_elem_of_singleton].
    + by apply (Hrect c).
    + apply length_replicate.
Qed.

(** What the loop over the required columns does to a frame. *)
Lemma add_missing_all (df : DataFrame) (cols : list string) :
  Dict.keys df `prefix_of` Dict.keys (foldl add_missing df cols)
  ∧ (∀ col, col ∈ cols → col ∈ Dict.keys (foldl add_missing df cols))
  ∧ (∀ k, k ∈ Dict.keys df →
          Dict.getitem (foldl add_missing df cols) k = Dict.getitem df k)
  ∧ nrows (foldl add_missing df cols) = nrows df
  ∧ (rectangular df → rectangular (foldl add_missing df cols)).
Proof.
  revert df. induction cols as [|col cols IH]; intros df; simpl.
  - split; [done|]. split; [by intros col ?%elem_of_nil | done].
  - destruct (IH (add_missing df col)) as (Hpre & Hcols & Hget & Hrows & Hrect).
    assert (Dict.keys df `prefix_of` Dict.keys (add_missing df col)) as Hstep
      by (rewrite keys_add_missing; by apply prefix_app_r).
    assert (∀ k, k ∈ Dict.keys df → k ∈ Dict.keys (add_missing df col)) as Hsub.
    { intros k Hk. destruct Hstep as [rest ->]. apply elem_of_app. by left. }
    split; [by etrans|]. split; [|split; [|split]].
    + intros c [-> | Hc]%elem_of_cons; [|by apply Hcols].
      destruct Hpre as [rest ->]. apply elem_of_app. left.
      rewrite keys_add_missing. destruct (decide (col ∈ Dict.keys df)).
      * by rewrite app_nil_r.
      * apply elem_of_app. right. by left.
    + intros k Hk. rewrite Hget by by apply Hsub. by apply getitem_add_missing.
    + by rewrite Hrows, nrows_add_missing.
    + intros H. by apply Hrect, rectangular_add_missing.
Qed.

Lemma elem_of_update {V} (d : list (string * V)) (k : string) (f : V → V)
    (k' : string) (v' : V) :
  (k', v') ∈ Dict.update d k f → (k', v') ∈ d ∨ ∃ v, (k', v) ∈ d ∧ v' = f v.
Proof.
  induction d as [|[k0 v0] d IH]; simpl; [by left|].
  destruct (decide (k0 = k)) as [-> | Hne].
  - intros [[= -> ->] | Hin]%elem_of_cons.
    + right. exists v0. split; [by left | done].
    + left. by right.
  - intros [[= -> ->] | Hin]%elem_of_cons; [left; by left|].
    destruct (IH Hin) as [? | (v & ? & ?)]; [left; by right|].
    right. exists v. split; [by right | done].
Qed.

Lemma rectangular_update (df : DataFrame) (col : string) (column : list cell) :
  rectangular df → length column = nrows df →
  rectangular (Dict.update df col (λ _, column)).
Proof.
  intros Hrect Hlen.
  assert (nrows (Dict.update df col (λ _, column)) = nrows df) as Hrows.
  { destruct df as [|[c0 column0] df]; [done|]. simpl.
    destruct (decide (c0 = col)); done. }
  intros c column' Hin. rewrite Hrows.
  apply elem_of_update in Hin as [Hin | (v & _ & ->)]; [by apply (Hrect c) | done].
Qed.

Section World.

Variable read_csv : string → outcome DataFrame.
Variable to_datetime : list cell → outcome (list cell).

Lemma load_data_body_returned (df : DataFrame) :
  load_data_body read_csv to_datetime = Returned df →
  ∃ df0,
    read_csv "finance_data.csv" = Returned df0
    ∧ ((∃ column dates,
          Dict.getitem (foldl add_missing df0 required_columns) "Date" = Some column
          ∧ to_datetime column = Returned dates
          ∧ df = Dict.update (foldl add_missing df0 required_columns) "Date"
                   (λ _, dates))
       ∨ df = foldl add_missing df0 required_columns).
Proof.
  unfold load_data_body.
  destruct (read_csv "finance_data.csv") as [df0 | e]; simpl; [|done].
  intros H. exists df0. split; [done|].
  destruct (Dict.getitem _ "Date") as [column|] eqn:Hdate.
  - destruct (to_datetime column) as [dates|] eqn:Hconv; simpl in H; [|done].
    injection H as <-. left. by exists column, dates.
  - injection H as <-. by right.
Qed.

Lemma load_data_returned (df : DataFrame) :
  load_data read_csv to_datetime = Returned df →
  df = empty_frame ∨ load_data_body read_csv to_datetime = Returned df.
Proof.
  unfold load_data.
  destruct (load_data_body read_csv to_datetime) as [df' | e]; simpl.
  - intros [= <-]. by right.
  - destruct (is_Exception e); [|done]. intros [= <-]. by left.
Qed.

(** X17. Whatever the file holds, the frame [load_data] returns has the
    four columns Date, Description, Category and Amount. *)
Theorem load_data_has_required_columns (df : DataFrame) :
  load_data read_csv to_datetime = Returned df →
  ∀ col, col ∈ required_columns → col ∈ Dict.keys df.
Proof.
  intros [-> | Hbody]%load_data_returned col Hcol; [done|].
  apply load_data_body_returned in Hbody
    as (df0 & _ & [(column & dates & _ & _ & ->) | ->]).
  - rewrite keys_update. by apply add_missing_all.
  - by apply add_missing_all.
Qed.

(** X18. A load that succeeds keeps what the file holds: the columns of the
    file come first and in their order, and every column of the file other
    than Date has the cells read from the file. *)
Theorem load_data_keeps_file (df0 df : DataFrame) :
  read_csv "finance_data.csv" = Returned df0 →
  load_data_body read_csv to_datetime = Returned df →
  load_data read_csv to_datetime = Returned df
  ∧ Dict.keys df0 `prefix_of` Dict.keys df
  ∧ (∀ col, col ∈ Dict.keys df0 → col ≠ "Date" →
            Dict.getitem df col = Dict.getitem df0 col).
Proof.
  intros Hread Hbody. split; [unfold load_data; by rewrite Hbody|].
  apply load_data_body_returned in Hbody
    as (df0' & Hread' & [(column & dates & _ & _ & ->) | ->]);
    rewrite Hread in Hread'; injection Hread' as <-.
  - rewrite keys_update. split; [by apply add_missing_all|].
    intros col Hcol Hne. rewrite getitem_update_ne by done.
    by apply add_missing_all.
  - split; [by apply add_missing_all|].
    intros col Hcol _. by apply add_missing_all.
Qed.

(** X19. A load that succeeds returns a rectangular frame with the rows of
    the file, when the file was read as a rectangular frame and the date
    conversion gives one date per cell: the columns that were missing are
    filled to the height of the frame. *)
Theorem load_data_rectangular (df0 df : DataFrame) :
  read_csv "finance_data.csv" = Returned df0 →
  rectangular df0 →
  (∀ column dates, to_datetime column = Returned dates →
                   length dates = length column) →
  load_data_body read_csv to_datetime = Returned df →
  rectangular df.
Proof.
  intros Hread Hrect Hconv Hbody.
  apply load_data_body_returned in Hbody
    as (df0' & Hread' & [(column & dates & Hdate & Hdates & ->) | ->]);
    rewrite Hread in Hread'; injection Hread' as <-.
  - destruct (add_missing_all df0 required_columns) as (_ & _ & _ & _ & Hrect').
    specialize (Hrect' Hrect). apply rectangular_update; [done|].
    rewrite (Hconv _ _ Hdates). apply (Hrect' "Date").
    clear -Hdate. induction (foldl add_missing df0 required_columns)
      as [|[c0 column0] d IH]; simpl in *; [done|].
    destruct (decide (c0 = "Date")) as [-> | Hne].
    + injection Hdate as ->. by left.
    + right. by apply IH.
  - by apply add_missing_all.
Qed.

End World.

Lemma load_data_has_required_columns_witness :
  Forall (λ col, col ∈ Dict.keys [("Amount", [CNumber 1]); ("Date", [CTimestamp 19727]);
                                  ("Description", [CNone]); ("Category", [CNone])])
         required_columns.
Proof.
  apply Forall_forall.
  apply (load_data_has_required_columns
           (λ _, Returned [("Amount", [CNumber 1]); ("Date", [CText "2024-01-05"])])
           (λ _, Returned [CTimestamp 19727])).
  reflexivity.
Defined.

Lemma load_data_keeps_file_witness :
  let df0 := [("Amount", [CNumber 1]); ("Date", [CText "2024-01-05"])] in
  let df := [("Amount", [CNumber 1]); ("Date", [CTimestamp 19727]);
             ("Description", [CNone]); ("Category", [CNone])] in
  load_data (λ _, Returned df0) (λ _, Returned [CTimestamp 19727]) = Returned df
  ∧ Dict.keys df0 `prefix_of` Dict.keys df
  ∧ (∀ col, col ∈ Dict.keys df0 → col ≠ "Date" →
            Dict.getitem df col = Dict.getitem df0 col).
Proof.
  cbv zeta. apply load_data_keeps_file; reflexivity.
Defined.

Lemma load_data_rectangular_witness :
  rectangular [("Amount", [CNumber 1; CNumber 2]);
               ("Date", [CTimestamp 0; CTimestamp 0]);
               ("Description", [CNone; CNone]); ("Category", [CNone; CNone])].
Proof.
  apply (load_data_rectangular
           (λ _, Returned [("Amount", [CNumber 1; CNumber 2]);
                           ("Date", [CText "2024-01-05"; CText "2024-01-06"])])
           (λ column, Returned ((λ _, CTimestamp 0) <$> column))
           [("Amount", [CNumber 1; CNumber 2]);
            ("Date", [CText "2024-01-05"; CText "2024-01-06"])]).
  - reflexivity.
  - intros col column Hin. apply list_elem_of_In in Hin. simpl in Hin.
    destruct Hin as [[= _ <-] | [[= _ <-] | []]]; reflexivity.
  - intros column dates [= <-]. apply length_fmap.
  - reflexivity.
Defined.

End StorageProps.

(** ** The access gate *)

Module SessionProps.
Import Session.

Lemma runs_authenticated (inputs : list (string * bool)) (i : nat) :
  i < length inputs → runs (Some true) inputs !! i = Some MainApp.
Proof.
  revert i. induction inputs as [|[access_code login] inputs IH]; intros i Hi;
    simpl in *; [lia|].
  destruct i as [|i]; [done|]. simpl. apply IH. lia.
Qed.

Lemma length_runs (session_state : option bool) (inputs : list (string * bool)) :
  length (runs session_state inputs) = length inputs.
Proof.
  revert session_state.
  induction inputs as [|[access_code login] inputs IH]; intros s; simpl; [done|].
  destruct (access_gate s access_code login). simpl. by rewrite IH.
Qed.

(** X20. The main app is shown only after a login with the access code: in
    a session that starts unauthenticated, a run that shows the main app comes
    after a run in which "Login" was pressed with the code. *)
Theorem gate_requires_code
    (session_state : option bool) (inputs : list (string * bool)) (i : nat) :
  default false session_state = false →
  runs session_state inputs !! i = Some MainApp →
  ∃ j, j < i ∧ inputs !! j = Some ("ayoub2003", true).
Proof.
  revert session_state i.
  induction inputs as [|[access_code login] inputs IH]; intros s i Hs Hrun;
    simpl in Hrun; [done|].
  unfold access_gate in Hrun. rewrite Hs in Hrun. simpl in Hrun.
  destruct login.
  - destruct (decide (access_code = "ayoub2003")) as [-> | Hne].
    + destruct i as [|i]; [done|]. exists 0. split; [lia | done].
    + destruct i as [|i]; [done|]. simpl in Hrun.
      destruct (IH (Some false) i eq_refl Hrun) as (j & Hj & Hin).
      exists (S j). split; [lia | done].
  - destruct i as [|i]; [done|]. simpl in Hrun.
    destruct (IH (Some false) i eq_refl Hrun) as (j & Hj & Hin).
    exists (S j). split; [lia | done].
Qed.

Lemma gate_requires_code_witness :
  ∃ j, j < 2
       ∧ [("guess", true); ("ayoub2003", true); ("", false)] !! j
         = Some ("ayoub2003", true).
Proof.
  apply (gate_requires_code None
           [("guess", true); ("ayoub2003", true); ("", false)] 2);
    reflexivity.
Defined.

(** X21. Once the main app is shown it is shown in every later run of the
    session: nothing in the script logs out. *)
Theorem gate_stays_open
    (session_state : option bool) (inputs : list (string * bool)) (i j : nat) :
  runs session_state inputs !! i = Some MainApp →
  (i ≤ j)%nat → j < length inputs →
  runs session_state inputs !! j = Some MainApp.
Proof.
  revert session_state i j.
  induction inputs as [|[access_code login] inputs IH]; intros s i j Hrun Hij Hj;
    simpl in *; [lia|].
  destruct (access_gate s access_code login) as [authenticated shown] eqn:Hgate.
  destruct i as [|i].
  - simpl in Hrun. injection Hrun as ->.
    assert (authenticated = true) as ->.
    { unfold access_gate in Hgate. destruct (default false s); simpl in Hgate.
      - congruence.
      - destruct login; [destruct (decide _)|]; congruence. }
    destruct j as [|j]; [done|]. simpl. apply runs_authenticated. lia.
  - destruct j as [|j]; [lia|]. simpl in *. apply (IH _ i); [done | lia | lia].
Qed.

Lemma gate_stays_open_witness :
  runs None [("ayoub2003", true); ("", false); ("x", true)] !! 2 = Some MainApp.
Proof.
  apply (gate_stays_open None [("ayoub2003", true); ("", false); ("x", true)] 1 2).
  - reflexivity.
  - repeat constructor.
  - repeat constructor.
Defined.

(** X22. The code opens the gate: after a run in which "Login" is pressed
    with the access code, every later run shows the main app; a run with
    another code, or without the button, leaves an unauthenticated session
    unauthenticated. *)
Theorem gate_opens_with_code
    (session_state : option bool) (access_code : string) (login : bool)
    (inputs : list (string * bool)) :
  (access_code = "ayoub2003" ∧ login = true →
   runs session_state ((access_code, login) :: inputs)
   = (if default false session_state then MainApp
      else Rerun (st_success "Access granted!"))
     :: replicate (length inputs) MainApp)
  ∧ (default false session_state = false →
     access_code ≠ "ayoub2003" ∨ login = false →
     ∃ shown,
       runs session_state ((access_code, login) :: inputs)
       = LoginPage shown :: runs (Some false) inputs).
Proof.
  assert (∀ l, runs (Some true) l = replicate (length l) MainApp) as Hauth.
  { intros l. apply list_eq. intros i.
    destruct (decide (i < length l)) as [Hi | Hi].
    - rewrite runs_authenticated by done. symmetry.
      by apply lookup_replicate_2.
    - rewrite !lookup_ge_None_2; [done | rewrite length_replicate; lia
                                  | rewrite length_runs; lia]. }
  split.
  - intros [-> ->]. simpl. unfold access_gate.
    destruct (default false session_state); simpl; by rewrite Hauth.
  - intros Hs Hbad. simpl. unfold access_gate. rewrite Hs. simpl.
    destruct login.
    + destruct (decide (access_code = "ayoub2003")) as [-> | Hne].
      * by destruct Hbad.
      * eauto.
    + eauto.
Qed.

End SessionProps.
